(** * postgis-property-search-demo-py: the Flask service of [app.py]

    A shallow embedding of the request handlers of [app.py]
    ([health_check], [find_nearby_properties], [search_properties],
    [add_property]), of the serializer [serialize_result] and of the three
    SQL statements the handlers send to the store, followed by the
    properties proved about them.

    What the program does not define is taken as an interface: the Python
    runtime ([float], [int], [datetime]) in the class [Runtime], the
    functions the spatial extension supplies in the class [Postgis]. *)

From Stdlib Require Import ZArith QArith String Ascii List Bool Lia.
From Stdlib Require Import Permutation Sorted.
Import ListNotations.

Set Warnings "-register-all".
Close Scope Q_scope.
Open Scope string_scope.
Open Scope Z_scope.

(** ** Exceptions and fallible computations *)

(** The exception classes that reach the handlers' [except] clauses, each
    with the text [str(e)] gives. *)
Inductive exn : Type :=
| ValueError (msg : string)
| TypeError (msg : string)
| KeyError (msg : string)
| DatabaseError (msg : string).

Definition exn_str (e : exn) : string :=
  match e with
  | ValueError m | TypeError m | KeyError m | DatabaseError m => m
  end.

(** [except ValueError] catches exactly this class. *)
Definition is_ValueError (e : exn) : bool :=
  match e with
  | ValueError _ => true
  | _ => false
  end.

Inductive result (A : Type) : Type :=
| Ok (a : A)
| Raise (e : exn).

Arguments Ok {A} a.
Arguments Raise {A} e.

Definition bind {A B : Type} (c : result A) (k : A -> result B) : result B :=
  match c with
  | Ok a => k a
  | Raise e => Raise e
  end.

Notation "x <- c ;; k" := (bind c (fun x => k))
  (at level 61, c at next level, right associativity).

(** ** The Python runtime *)

(** What the service takes from the interpreter and its standard library.
    [float] is the type of Python floats; decimals ([Decimal], and the
    store's [numeric]) are exact and modelled by [Q]. *)
Class Runtime : Type := {
  float : Type;
  (** [float(d)] of a decimal, which is also how a float literal is read *)
  float_of_decimal : Q -> float;
  (** an integer written where the store reads a double *)
  float_of_int : Z -> float;
  (** the falsy floats: [x == 0.0] *)
  float_is_zero : float -> bool;
  (** neither [nan] nor an infinity *)
  float_is_finite : float -> bool;
  (** [float(s)] of a string; [None] stands for [ValueError] *)
  py_float : string -> option float;
  (** [int(s)] of a string; [None] stands for [ValueError] *)
  py_int : string -> option Z;
  datetime : Type;
  (** [t.isoformat()] *)
  isoformat : datetime -> string
}.

(** Python values: what a JSON body parses to, what a cursor returns in a
    row, and what [jsonify] is given. [PBytes] stands for the values
    ([bytes], [memoryview]) that have no JSON form at all. *)
Inductive pyval {RT : Runtime} : Type :=
| PNone
| PBool (b : bool)
| PInt (z : Z)
| PFloat (f : float)
| PStr (s : string)
| PDecimal (d : Q)
| PDatetime (t : datetime)
| PList (l : list pyval)
| PDict (kv : list (string * pyval))
| PBytes (b : string).

Section Values.
Context {RT : Runtime}.

(** A [dict] (and werkzeug's [MultiDict] of query arguments) as its list
    of items; [d.get(k)] finds the first item with the key. *)
Fixpoint dict_get {V : Type} (d : list (string * V)) (k : string) : option V :=
  match d with
  | [] => None
  | (k', v) :: d' => if String.eqb k k' then Some v else dict_get d' k
  end.

Definition dict_has {V : Type} (d : list (string * V)) (k : string) : bool :=
  match dict_get d k with
  | Some _ => true
  | None => false
  end.

(** [needle in haystack] on two strings. *)
Fixpoint is_substring (needle haystack : string) : bool :=
  if String.prefix needle haystack then true
  else match haystack with
       | EmptyString => false
       | String _ rest => is_substring needle rest
       end.

(** [field in data], for [data] any value a JSON body parses to: key
    membership for a dict, element membership for a list, substring for a
    string, and [TypeError] for what is not a container. *)
Definition py_contains (data : pyval) (field : string) : result bool :=
  match data with
  | PDict kv => Ok (dict_has kv field)
  | PList l =>
      Ok (existsb (fun v => match v with
                            | PStr s => String.eqb s field
                            | _ => false
                            end) l)
  | PStr s => Ok (is_substring field s)
  | _ => Raise (TypeError "argument is not iterable")
  end.

(** [all(field in data for field in fields)]: stops at the first field
    that is not there. *)
Fixpoint all_in (data : pyval) (fields : list string) : result bool :=
  match fields with
  | [] => Ok true
  | f :: fs =>
      b <- py_contains data f ;;
      if b then all_in data fs else Ok false
  end.

(** [data[key]] with a string key. *)
Definition py_getitem (data : pyval) (key : string) : result pyval :=
  match data with
  | PDict kv =>
      match dict_get kv key with
      | Some v => Ok v
      | None => Raise (KeyError key)
      end
  | _ => Raise (TypeError "indices must be integers")
  end.

(** [data.get(key, default)]. *)
Definition py_get (data : pyval) (key : string) (default : pyval) : result pyval :=
  match data with
  | PDict kv =>
      match dict_get kv key with
      | Some v => Ok v
      | None => Ok default
      end
  | _ => Raise (TypeError "object has no attribute get")
  end.

(** The value [data.get(key, default)] has for a dict. *)
Definition dict_get_default (kv : list (string * pyval)) (key : string) (default : pyval)
    : pyval :=
  match dict_get kv key with
  | Some v => v
  | None => default
  end.

(** The value of an optional argument, or a default. *)
Definition or_default {A : Type} (o : option A) (default : A) : A :=
  match o with
  | Some a => a
  | None => default
  end.

(** ** The result serializer *)

(** [serialize_result], lines 42-48. *)
Definition serialize_result (obj : pyval) : result pyval :=
  match obj with
  | PDecimal d => Ok (PFloat (float_of_decimal d))
  | PDatetime t => Ok (PStr (isoformat t))
  | _ => Raise (TypeError "Object is not JSON serializable")
  end.

(** [jsonify(v, default=serialize_result)], the call that ends both
    searches (lines 212-217 and 276-285). Flask's [jsonify] takes either
    positional arguments or keyword arguments: given both, it raises
    [TypeError] before it looks at any of them. The searches give it the
    body as a positional argument and [default] as a keyword, so the call
    raises whatever the body is, and [serialize_result] is never asked.
    The other answers of the service are made by [jsonify] with one
    positional argument, which answers with that value. *)
Definition jsonify_default (v : pyval) : result pyval :=
  Raise (TypeError "jsonify takes either args or kwargs, not both").

End Values.

Notation "' pat <- c ;; k" := (bind c (fun x => match x with pat => k end))
  (at level 61, pat pattern, c at next level, right associativity).

(** ** The store *)

(** A point as the spatial extension holds it: its two coordinates, X
    first, and the identifier of its coordinate reference system. *)
Record geometry {RT : Runtime} : Type := {
  geom_x : float;
  geom_y : float;
  geom_srid : Z
}.

(** Modelled from the spec: the [properties] table, which the service
    reads and writes but whose declaration is not in the repository; the
    columns and which of them may be null are those of the spec's data
    model. Numeric columns hold exact decimals. *)
Record property {RT : Runtime} : Type := {
  id : Z;
  address : string;
  price : Q;
  bedrooms : option Z;
  bathrooms : option Q;
  square_feet : option Q;
  property_type : option string;
  listing_status : option string;
  location : option geometry;
  created_at : datetime
}.

(** The six column values an insert supplies, once the store has taken
    them. *)
Record inserted_columns : Type := {
  ins_address : string;
  ins_price : Q;
  ins_bedrooms : option Z;
  ins_bathrooms : option Q;
  ins_square_feet : option Q;
  ins_property_type : option string
}.

(** The statements the service sends. *)
Inductive statement : Type :=
| Stmt_server_info
| Stmt_postgis_version
| Stmt_counts
| Stmt_nearby
| Stmt_search
| Stmt_insert.

(** The store as a request finds it. [connect_error] is the failure of
    [psycopg2.connect], when it fails; [fault] tells which statements the
    store fails, whatever the reason (the connection is lost, the
    extension or the table is missing, a function refuses its arguments),
    and with which message. *)
Record database {RT : Runtime} : Type := {
  connect_error : option string;
  fault : statement -> list pyval -> option string;
  server_version : string;
  database_name : string;
  user_name : string;
  server_now : datetime;
  postgis_version : string;
  rows : list property;
  next_id : Z
}.

(** What the store and its spatial extension supply. *)
Class Postgis {RT : Runtime} : Type := {
  (** [ST_Distance(a, b)] *)
  ST_Distance : geometry -> geometry -> float;
  (** [ST_DWithin(a, b, r)] *)
  ST_DWithin : geometry -> geometry -> float -> bool;
  (** the order of [double precision], which [ORDER BY] sorts by *)
  float8_le : float -> float -> bool;
  (** [column >= x] for a numeric column and a float parameter *)
  numeric_ge_float : Q -> float -> bool;
  (** [text ILIKE pattern] *)
  ilike : string -> string -> bool;
  (** the table's reading of the six values bound to an [INSERT]: the
      column values it stores, or [None] when a type or a constraint
      refuses them *)
  table_accepts :
    pyval -> pyval -> pyval -> pyval -> pyval -> pyval -> option inserted_columns;
  (** the value [listing_status] takes when an insert leaves it out *)
  default_listing_status : option string;
  (** what the store makes of an [INSERT] one of whose coordinates the
      driver wrote with a quote: the quote ends the literal that opens
      with ['POINT(], and what follows in the parameter is read as SQL.
      The outcome (the identifier of the row returned, or the error) and
      the store afterwards are whatever that text makes them *)
  spliced_insert : database -> list pyval -> result Z * database
}.

Section Store.
Context {RT : Runtime} {PG : Postgis}.

(** [get_db_connection], lines 33-40: the error is logged and raised
    again. *)
Definition get_db_connection (d : database) : result unit :=
  match connect_error d with
  | Some msg => Raise (DatabaseError msg)
  | None => Ok tt
  end.

Definition check_fault (d : database) (s : statement) (params : list pyval) : result unit :=
  match fault d s params with
  | Some msg => Raise (DatabaseError msg)
  | None => Ok tt
  end.

(** The parameters the driver writes without a quote: [NULL], [true] and
    [false], an integer, a finite float. A string is written between
    quotes of its own, and so is a float that is not finite
    (['NaN'::float]); of the other values nothing is assumed. *)
Definition plain_coordinate (v : pyval) : bool :=
  match v with
  | PNone | PBool _ | PInt _ => true
  | PFloat f => float_is_finite f
  | _ => false
  end.

(** The coordinate a parameter makes between the parentheses of
    ['POINT(%s %s)']. It is asked only about the parameters the two
    statements are run on here: those of [plain_coordinate], and the
    floats of the nearby search. An integer and a finite float are
    written as numbers; [NULL] and [true] are no coordinate, and a float
    that is not finite (written ['NaN'::float]) leaves a statement the
    store does not parse: with these the statement fails. *)
Definition wkt_coordinate (v : pyval) : option float :=
  match v with
  | PInt z => Some (float_of_int z)
  | PFloat f => if float_is_finite f then Some f else None
  | _ => None
  end.

(** [ST_GeomFromText('POINT(%s %s)', srid)] with its two parameters,
    neither of them a string. *)
Definition ST_GeomFromText_POINT (x y : pyval) (srid : Z) : result geometry :=
  match wkt_coordinate x, wkt_coordinate y with
  | Some fx, Some fy => Ok {| geom_x := fx; geom_y := fy; geom_srid := srid |}
  | _, _ => Raise (DatabaseError "parse error - invalid geometry")
  end.

(** [LIMIT n]. *)
Definition sql_limit {A : Type} (n : Z) (l : list A) : result (list A) :=
  if n <? 0 then Raise (DatabaseError "LIMIT must not be negative")
  else Ok (firstn (Z.to_nat n) l).

(** [ORDER BY]: the rows in the column's order. Which of two rows with
    equal keys comes first is the store's choice; this sort keeps them as
    they were, and nothing below depends on it. *)
Fixpoint insert_by {A : Type} (le : A -> A -> bool) (x : A) (l : list A) : list A :=
  match l with
  | [] => [x]
  | y :: l' => if le x y then x :: l else y :: insert_by le x l'
  end.

Definition sort_by {A : Type} (le : A -> A -> bool) (l : list A) : list A :=
  fold_right (insert_by le) [] l.

Definition cell {A : Type} (f : A -> pyval) (o : option A) : pyval :=
  match o with
  | Some a => f a
  | None => PNone
  end.

(** *** The nearby search, lines 182-208 *)

(** A row of the nearby search with the distance computed for it. *)
Definition nearby_row (p : property) (g : geometry) (distance : float) : list (string * pyval) :=
  [ ("id", PInt (id p));
    ("address", PStr (address p));
    ("price", PDecimal (price p));
    ("bedrooms", cell PInt (bedrooms p));
    ("bathrooms", cell PDecimal (bathrooms p));
    ("square_feet", cell PDecimal (square_feet p));
    ("property_type", cell PStr (property_type p));
    ("listing_status", cell PStr (listing_status p));
    ("longitude", PFloat (geom_x g));
    ("latitude", PFloat (geom_y g));
    ("distance_meters", PFloat distance);
    ("created_at", PDatetime (created_at p)) ].

(** The rows with a location, each with its location and its distance to
    [center], that lie within [radius] of [within]. *)
Fixpoint nearby_candidates (center within : geometry) (radius : float)
    (l : list property) : list (property * geometry * float) :=
  match l with
  | [] => []
  | p :: l' =>
      match location p with
      | Some g =>
          if ST_DWithin g within radius
          then (p, g, ST_Distance g center) :: nearby_candidates center within radius l'
          else nearby_candidates center within radius l'
      | None => nearby_candidates center within radius l'
      end
  end.

Definition by_distance (a b : property * geometry * float) : bool :=
  float8_le (snd a) (snd b).

Definition candidate_row (c : property * geometry * float) : list (string * pyval) :=
  nearby_row (fst (fst c)) (snd (fst c)) (snd c).

(** The statement of the nearby search with its six parameters, bound by
    position: the point of [ST_Distance], the point of [ST_DWithin], the
    radius, the limit. The handler has made the four coordinates with
    [float] and the radius and the limit with [int]. *)
Definition execute_nearby (d : database) (x1 y1 x2 y2 : float) (radius limit : Z)
    : result (list (list (string * pyval))) :=
  _ <- check_fault d Stmt_nearby
         [PFloat x1; PFloat y1; PFloat x2; PFloat y2; PInt radius; PInt limit] ;;
  center <- ST_GeomFromText_POINT (PFloat x1) (PFloat y1) 4326 ;;
  within <- ST_GeomFromText_POINT (PFloat x2) (PFloat y2) 4326 ;;
  let found := nearby_candidates center within (float_of_int radius) (rows d) in
  limited <- sql_limit limit (sort_by by_distance found) ;;
  Ok (map candidate_row limited).

(** *** The filtered search, lines 258-269 *)

Definition search_row (p : property) : list (string * pyval) :=
  [ ("id", PInt (id p));
    ("address", PStr (address p));
    ("price", PDecimal (price p));
    ("bedrooms", cell PInt (bedrooms p));
    ("bathrooms", cell PDecimal (bathrooms p));
    ("square_feet", cell PDecimal (square_feet p));
    ("property_type", cell PStr (property_type p));
    ("listing_status", cell PStr (listing_status p));
    ("longitude", cell (fun g => PFloat (geom_x g)) (location p));
    ("latitude", cell (fun g => PFloat (geom_y g)) (location p));
    ("created_at", PDatetime (created_at p)) ].

Definition holds {A : Type} (f : A -> bool) (o : option A) : bool :=
  match o with
  | Some a => f a
  | None => false
  end.

(** One conjunct of the [WHERE] clause, read off its text, with the
    parameter its placeholder takes from the front of [params]. A
    comparison with a null column is not true. *)
Definition bind_condition (c : string) (params : list pyval)
    : result ((property -> bool) * list pyval) :=
  if String.eqb c "listing_status = 'active'" then
    Ok (fun p => holds (String.eqb "active") (listing_status p), params)
  else match params with
  | v :: rest =>
      if String.eqb c "price >= %s" then
        match v with
        | PInt m => Ok (fun p => Qle_bool (inject_Z m) (price p), rest)
        | _ => Raise (DatabaseError "operator does not exist")
        end
      else if String.eqb c "price <= %s" then
        match v with
        | PInt m => Ok (fun p => Qle_bool (price p) (inject_Z m), rest)
        | _ => Raise (DatabaseError "operator does not exist")
        end
      else if String.eqb c "bedrooms >= %s" then
        match v with
        | PInt m => Ok (fun p => holds (Z.leb m) (bedrooms p), rest)
        | _ => Raise (DatabaseError "operator does not exist")
        end
      else if String.eqb c "bathrooms >= %s" then
        match v with
        | PFloat x => Ok (fun p => holds (fun b => numeric_ge_float b x) (bathrooms p), rest)
        | _ => Raise (DatabaseError "operator does not exist")
        end
      else if String.eqb c "property_type ILIKE %s" then
        match v with
        | PStr pat => Ok (fun p => holds (fun t => ilike t pat) (property_type p), rest)
        | _ => Raise (DatabaseError "operator does not exist")
        end
      else Raise (DatabaseError "syntax error")
  | [] => Raise (DatabaseError "not enough parameters")
  end.

(** The conjuncts joined by [AND], their placeholders bound from left to
    right. *)
Fixpoint bind_where (conditions : list string) (params : list pyval)
    : result (list (property -> bool) * list pyval) :=
  match conditions with
  | [] => Ok ([], params)
  | c :: cs =>
      ' (f, rest) <- bind_condition c params ;;
      ' (fs, rest') <- bind_where cs rest ;;
      Ok (f :: fs, rest')
  end.

Definition by_price (a b : property) : bool := Qle_bool (price a) (price b).

(** The statement of the filtered search: the rows every conjunct holds
    of, by ascending price, cut at the limit, the last parameter. *)
Definition execute_search (d : database) (conditions : list string) (params : list pyval)
    : result (list (list (string * pyval))) :=
  _ <- check_fault d Stmt_search params ;;
  ' (preds, rest) <- bind_where conditions params ;;
  match rest with
  | [PInt limit] =>
      let found := filter (fun p => forallb (fun f => f p) preds) (rows d) in
      limited <- sql_limit limit (sort_by by_price found) ;;
      Ok (map search_row limited)
  | _ => Raise (DatabaseError "wrong parameters")
  end.

(** *** The insert, lines 303-310 *)

(** The row an [INSERT] adds: the six column values, the point, and what
    the table fills in. *)
Definition inserted_row (d : database) (c : inserted_columns) (g : geometry) : property :=
  {| id := next_id d;
     address := ins_address c;
     price := ins_price c;
     bedrooms := ins_bedrooms c;
     bathrooms := ins_bathrooms c;
     square_feet := ins_square_feet c;
     property_type := ins_property_type c;
     listing_status := default_listing_status;
     location := Some g;
     created_at := server_now d |}.

(** The [INSERT] with its eight parameters: six column values, then the
    two coordinates of ['POINT(%s %s)']. It returns the identifier the
    store assigns, or the error, and the store as the statement leaves
    it. The two coordinates are written inside a quoted literal: when
    both are written without a quote the statement is the one [INSERT],
    which adds one row or fails and adds none; otherwise the text is what
    the parameter makes it, [spliced_insert]. *)
Definition execute_insert (d : database) (params : list pyval) : result Z * database :=
  match params with
  | [a; p; be; ba; sq; pt; x; y] =>
      if plain_coordinate x && plain_coordinate y then
        let attempt :=
          _ <- check_fault d Stmt_insert params ;;
          g <- ST_GeomFromText_POINT x y 4326 ;;
          match table_accepts a p be ba sq pt with
          | Some c => Ok (inserted_row d c g)
          | None => Raise (DatabaseError "the table refuses the values")
          end
        in
        match attempt with
        | Ok row =>
            (Ok (next_id d),
             {| connect_error := connect_error d;
                fault := fault d;
                server_version := server_version d;
                database_name := database_name d;
                user_name := user_name d;
                server_now := server_now d;
                postgis_version := postgis_version d;
                rows := rows d ++ [row];
                next_id := next_id d + 1 |})
        | Raise e => (Raise e, d)
        end
      else spliced_insert d params
  | _ => (Raise (DatabaseError "wrong parameters"), d)
  end.

End Store.

(** ** The request handlers *)

Section Handlers.
Context {RT : Runtime} {PG : Postgis}.

(** [float(request.args.get(key, default))]. *)
Definition arg_float (args : list (string * string)) (key : string) (default : float)
    : result float :=
  match dict_get args key with
  | Some s =>
      match py_float s with
      | Some x => Ok x
      | None => Raise (ValueError "could not convert string to float")
      end
  | None => Ok default
  end.

(** [int(request.args.get(key, default))]. *)
Definition arg_int (args : list (string * string)) (key : string) (default : Z)
    : result Z :=
  match dict_get args key with
  | Some s =>
      match py_int s with
      | Some n => Ok n
      | None => Raise (ValueError "invalid literal for int()")
      end
  | None => Ok default
  end.

(** [request.args.get(key, type=conv)]: a value that does not convert
    counts as absent. *)
Definition arg_typed {A : Type} (conv : string -> option A)
    (args : list (string * string)) (key : string) : option A :=
  match dict_get args key with
  | Some s => conv s
  | None => None
  end.

(** *** [health_check], lines 118-168 *)

(** [SELECT version(), current_database(), current_user, NOW()]. *)
Definition probe_server_info (d : database) : result (string * string * string * datetime) :=
  _ <- check_fault d Stmt_server_info [] ;;
  Ok (server_version d, database_name d, user_name d, server_now d).

(** [SELECT PostGIS_Version()]. *)
Definition probe_postgis_version (d : database) : result string :=
  _ <- check_fault d Stmt_postgis_version [] ;;
  Ok (postgis_version d).

Definition has_location (p : property) : bool :=
  match location p with
  | Some _ => true
  | None => false
  end.

(** [SELECT COUNT( * ), COUNT(location) FROM properties]. *)
Definition probe_counts (d : database) : result (Z * Z) :=
  _ <- check_fault d Stmt_counts [] ;;
  Ok (Z.of_nat (length (rows d)),
      Z.of_nat (length (filter has_location (rows d)))).


Definition healthy_body (d : database) (clock : datetime) : pyval :=
  PDict
    [ ("status", PStr "healthy");
      ("timestamp", PStr (isoformat clock));
      ("database",
       PDict [ ("version", PStr (server_version d));
               ("database", PStr (database_name d));
               ("user", PStr (user_name d));
               ("server_time", PStr (isoformat (server_now d))) ]);
      ("postgis",
       PDict [ ("version", PStr (postgis_version d));
               ("spatial_enabled", PBool true) ]);
      ("data_summary",
       PDict [ ("total_properties", PInt (Z.of_nat (length (rows d))));
               ("properties_with_location",
                PInt (Z.of_nat (length (filter has_location (rows d))))) ]) ].

Definition unhealthy_body (msg : string) (clock : datetime) : pyval :=
  PDict [ ("status", PStr "unhealthy");
          ("error", PStr msg);
          ("timestamp", PStr (isoformat clock)) ].

Definition health_check (d : database) (clock : datetime) : Z * pyval :=
  let attempt :=
    _ <- get_db_connection d ;;
    ' (version, current_database, current_user, now) <- probe_server_info d ;;
    postgis <- probe_postgis_version d ;;
    ' (property_count, properties_with_location) <- probe_counts d ;;
    Ok (PDict
          [ ("status", PStr "healthy");
            ("timestamp", PStr (isoformat clock));
            ("database",
             PDict [ ("version", PStr version);
                     ("database", PStr current_database);
                     ("user", PStr current_user);
                     ("server_time", PStr (isoformat now)) ]);
            ("postgis",
             PDict [ ("version", PStr postgis);
                     ("spatial_enabled", PBool true) ]);
            ("data_summary",
             PDict [ ("total_properties", PInt property_count);
                     ("properties_with_location", PInt properties_with_location) ]) ])
  in
  match attempt with
  | Ok body => (200, body)
  | Raise e =>
      (500, PDict [ ("status", PStr "unhealthy");
                    ("error", PStr (exn_str e));
                    ("timestamp", PStr (isoformat clock)) ])
  end.

(** *** [find_nearby_properties], lines 171-223 *)

Definition default_lat : float := float_of_decimal (377749 # 10000)%Q.
Definition default_lng : float := float_of_decimal (-1224194 # 10000)%Q.

(** [min(int(request.args.get('limit', default)), 100)]. *)
Definition effective_limit (args : list (string * string)) (default : Z) : result Z :=
  n <- arg_int args "limit" default ;;
  Ok (Z.min n 100).

(** The connection and the query of the nearby search, with the
    parameters [(lng, lat, lng, lat, radius, limit)]. *)
Definition run_nearby (d : database) (lat lng : float) (radius limit : Z)
    : result (list (list (string * pyval))) :=
  _ <- get_db_connection d ;;
  execute_nearby d lng lat lng lat radius limit.

Definition nearby_body (lat lng : float) (radius : Z)
    (properties : list (list (string * pyval))) : pyval :=
  PDict [ ("search_center", PDict [ ("latitude", PFloat lat); ("longitude", PFloat lng) ]);
          ("radius_meters", PInt radius);
          ("total_found", PInt (Z.of_nat (length properties)));
          ("properties", PList (map PDict properties)) ].

Definition find_nearby_properties (args : list (string * string)) (d : database)
    : Z * pyval :=
  let attempt :=
    lat <- arg_float args "lat" default_lat ;;
    lng <- arg_float args "lng" default_lng ;;
    radius <- arg_int args "radius" 1000 ;;
    limit <- effective_limit args 10 ;;
    properties <- run_nearby d lat lng radius limit ;;
    jsonify_default (nearby_body lat lng radius properties)
  in
  match attempt with
  | Ok body => (200, body)
  | Raise e =>
      if is_ValueError e
      then (400, PDict [ ("error", PStr "Invalid coordinates or radius") ])
      else (500, PDict [ ("error", PStr "Search failed") ])
  end.

(** *** [search_properties], lines 225-289 *)

(** The truth value of an optional query argument: [None], [0], [0.0]
    and the empty string are false. *)
Definition truthy_int (o : option Z) : bool :=
  match o with
  | Some n => negb (n =? 0)
  | None => false
  end.

Definition truthy_float (o : option float) : bool :=
  match o with
  | Some x => negb (float_is_zero x)
  | None => false
  end.

Definition truthy_str (o : option string) : bool :=
  match o with
  | Some s => negb (String.eqb s "")
  | None => false
  end.

(** [if test: conditions.append(condition); params.append(value)]. *)
Definition append_filter (test : bool) (condition : string) (value : pyval)
    (q : list string * list pyval) : list string * list pyval :=
  if test then ((fst q ++ [condition])%list, (snd q ++ [value])%list) else q.

(** [f"%{property_type}%"]. *)
Definition like_pattern (s : string) : string := "%" ++ s ++ "%".

(** Lines 237-256: the conditions and the parameters of the query. *)
Definition build_search (price_min price_max bedrooms : option Z)
    (bathrooms : option float) (property_type : option string) (limit : Z)
    : list string * list pyval :=
  let q := (["listing_status = 'active'"], []) in
  let q := append_filter (truthy_int price_min) "price >= %s" (cell PInt price_min) q in
  let q := append_filter (truthy_int price_max) "price <= %s" (cell PInt price_max) q in
  let q := append_filter (truthy_int bedrooms) "bedrooms >= %s" (cell PInt bedrooms) q in
  let q := append_filter (truthy_float bathrooms) "bathrooms >= %s" (cell PFloat bathrooms) q in
  let q := append_filter (truthy_str property_type) "property_type ILIKE %s"
             (cell (fun s => PStr (like_pattern s)) property_type) q in
  (fst q, (snd q ++ [PInt limit])%list).

(** Lines 258-269: the text of the query. *)
Definition search_query (conditions : list string) : string :=
  "
            SELECT 
                id, address, price, bedrooms, bathrooms, square_feet,
                property_type, listing_status,
                ST_X(location) as longitude,
                ST_Y(location) as latitude,
                created_at
            FROM properties 
            WHERE " ++ String.concat " AND " conditions ++ "
            ORDER BY price ASC
            LIMIT %s;
        ".

Definition run_search (d : database) (conditions : list string) (params : list pyval)
    : result (list (list (string * pyval))) :=
  _ <- get_db_connection d ;;
  execute_search d conditions params.

Definition search_body (price_min price_max bedrooms : option Z)
    (bathrooms : option float) (property_type : option string)
    (properties : list (list (string * pyval))) : pyval :=
  PDict [ ("filters_applied",
           PDict [ ("price_range", PList [cell PInt price_min; cell PInt price_max]);
                   ("min_bedrooms", cell PInt bedrooms);
                   ("min_bathrooms", cell PFloat bathrooms);
                   ("property_type", cell PStr property_type) ]);
          ("total_found", PInt (Z.of_nat (length properties)));
          ("properties", PList (map PDict properties)) ].

(** The query a filtered search builds from its arguments. *)
Definition search_request (args : list (string * string)) (limit : Z)
    : list string * list pyval :=
  build_search (arg_typed py_int args "price_min") (arg_typed py_int args "price_max")
    (arg_typed py_int args "bedrooms") (arg_typed py_float args "bathrooms")
    (dict_get args "property_type") limit.

Definition search_answer_body (args : list (string * string))
    (rs : list (list (string * pyval))) : pyval :=
  search_body (arg_typed py_int args "price_min") (arg_typed py_int args "price_max")
    (arg_typed py_int args "bedrooms") (arg_typed py_float args "bathrooms")
    (dict_get args "property_type") rs.

Definition search_properties (args : list (string * string)) (d : database)
    : Z * pyval :=
  let attempt :=
    let price_min := arg_typed py_int args "price_min" in
    let price_max := arg_typed py_int args "price_max" in
    let bedrooms := arg_typed py_int args "bedrooms" in
    let bathrooms := arg_typed py_float args "bathrooms" in
    let property_type := dict_get args "property_type" in
    limit <- effective_limit args 20 ;;
    let q := build_search price_min price_max bedrooms bathrooms property_type limit in
    properties <- run_search d (fst q) (snd q) ;;
    jsonify_default
      (search_body price_min price_max bedrooms bathrooms property_type properties)
  in
  match attempt with
  | Ok body => (200, body)
  | Raise _ => (500, PDict [ ("error", PStr "Search failed") ])
  end.

(** *** [add_property], lines 291-333 *)

Definition required_fields : list string :=
  ["address"; "price"; "latitude"; "longitude"].

(** Lines 311-320: the parameters of the insert. *)
Definition insert_params (data : pyval) : result (list pyval) :=
  a <- py_getitem data "address" ;;
  p <- py_getitem data "price" ;;
  be <- py_get data "bedrooms" PNone ;;
  ba <- py_get data "bathrooms" PNone ;;
  sq <- py_get data "square_feet" PNone ;;
  pt <- py_get data "property_type" (PStr "Unknown") ;;
  x <- py_getitem data "longitude" ;;
  y <- py_getitem data "latitude" ;;
  Ok [a; p; be; ba; sq; pt; x; y].

(** The handler answers and leaves the store as the second component.
    A request that does not reach the [INSERT] leaves the store as it
    was; one that does leaves it as the statement did. *)
Definition add_property (data : pyval) (d : database) : (Z * pyval) * database :=
  let attempt :=
    complete <- all_in data required_fields ;;
    if negb complete
    then Ok ((400, PDict [ ("error", PStr "Missing required fields") ]), d)
    else
      _ <- get_db_connection d ;;
      params <- insert_params data ;;
      Ok (match execute_insert d params with
          | (Ok new_id, d') =>
              ((201, PDict [ ("success", PBool true);
                             ("property_id", PInt new_id);
                             ("message", PStr "Property added successfully") ]), d')
          | (Raise _, d') =>
              ((500, PDict [ ("error", PStr "Failed to add property") ]), d')
          end)
  in
  match attempt with
  | Ok r => r
  | Raise _ => ((500, PDict [ ("error", PStr "Failed to add property") ]), d)
  end.

End Handlers.

(** ** Positional binding of a statement's parameters *)

(** The text of a statement once the driver has bound its parameters:
    the characters of the statement, with a value where a placeholder
    stood. *)
Inductive token {RT : Runtime} : Type :=
| Chr (c : ascii)
| Bound (v : pyval).

Section Binding.
Context {RT : Runtime}.

Definition chars (s : string) : list token := map Chr (list_ascii_of_string s).

(** [cur.execute(sql, params)] on the driver's side: each [%s] takes
    the next parameter, [%%] is a percent sign, and the statement is
    refused when the parameters and the placeholders do not match in
    number or another character follows a percent sign. *)
Fixpoint bind_placeholders (sql : string) (params : list pyval) : option (list token) :=
  match sql with
  | EmptyString =>
      match params with
      | [] => Some []
      | _ :: _ => None
      end
  | String "%" (String "s" rest) =>
      match params with
      | v :: params' => option_map (cons (Bound v)) (bind_placeholders rest params')
      | [] => None
      end
  | String "%" (String "%" rest) =>
      option_map (cons (Chr "%")) (bind_placeholders rest params)
  | String "%" _ => None
  | String c rest => option_map (cons (Chr c)) (bind_placeholders rest params)
  end.

(** One condition with its own value in the place of its placeholder. *)
Definition bound_condition (f : string * pyval) : list token :=
  match bind_placeholders (fst f) [snd f] with
  | Some l => l
  | None => []
  end.

(** The filters a search request supplies, each as the condition and the
    value the builder appends for it, in the order of the source. *)
Definition supplied_filters (price_min price_max bedrooms : option Z)
    (bathrooms : option float) (property_type : option string)
    : list (string * pyval) :=
  ((if truthy_int price_min then [("price >= %s", cell PInt price_min)] else []) ++
   (if truthy_int price_max then [("price <= %s", cell PInt price_max)] else []) ++
   (if truthy_int bedrooms then [("bedrooms >= %s", cell PInt bedrooms)] else []) ++
   (if truthy_float bathrooms then [("bathrooms >= %s", cell PFloat bathrooms)] else []) ++
   (if truthy_str property_type
    then [("property_type ILIKE %s", cell (fun s => PStr (like_pattern s)) property_type)]
    else []))%list.

(** The text of the filtered search with every condition bound to its
    own value and the limit bound last. *)
Definition bound_search_query (filters : list (string * pyval)) (limit : Z) : list token :=
  (chars "
            SELECT 
                id, address, price, bedrooms, bathrooms, square_feet,
                property_type, listing_status,
                ST_X(location) as longitude,
                ST_Y(location) as latitude,
                created_at
            FROM properties 
            WHERE listing_status = 'active'" ++
   flat_map (fun f => chars " AND " ++ bound_condition f) filters ++
   chars "
            ORDER BY price ASC
            LIMIT " ++ [Bound (PInt limit)] ++ chars ";
        ")%list.

(** ** Reading a response *)

(** The [properties] array of a response body, and its [total_found]. *)
Definition response_properties (body : pyval) : list pyval :=
  match body with
  | PDict kv =>
      match dict_get kv "properties" with
      | Some (PList ps) => ps
      | _ => []
      end
  | _ => []
  end.

Definition response_field (body : pyval) (key : string) : option pyval :=
  match body with
  | PDict kv => dict_get kv key
  | _ => None
  end.

(** A field of one element of the [properties] array. *)
Definition property_field (p : pyval) (key : string) : option pyval :=
  response_field p key.

Definition distance_of (p : pyval) : option float :=
  match property_field p "distance_meters" with
  | Some (PFloat x) => Some x
  | _ => None
  end.

End Binding.

(** ** What the proofs assume of the spatial extension *)

Section Laws.
Context {RT : Runtime} {PG : Postgis}.

(** [ST_DWithin(a, b, r)] holds only of geometries whose [ST_Distance]
    is at most [r]. *)
Definition dwithin_bounds_distance : Prop :=
  forall (a b : geometry) (r : float),
    ST_DWithin a b r = true -> float8_le (ST_Distance a b) r = true.

(** Any two doubles are ordered one way or the other. *)
Definition float8_le_total : Prop :=
  forall x y : float, float8_le x y = true \/ float8_le y x = true.

(** A point is within every radius that is not negative of itself. *)
Definition point_within_itself : Prop :=
  forall (g : geometry) (r : Z), 0 <= r -> ST_DWithin g g (float_of_int r) = true.

End Laws.

(** ** A small runtime and store to run the service on

    Floats are whole numbers, the distance of two points is the sum of
    the differences of their coordinates, and the table takes a string as
    address and an integer that is not negative as price. *)

Definition digit_of (c : ascii) : option Z :=
  let n := Z.of_nat (nat_of_ascii c) in
  if (48 <=? n) && (n <=? 57) then Some (n - 48) else None.

Fixpoint digits_value (acc : Z) (s : string) : option Z :=
  match s with
  | EmptyString => Some acc
  | String c rest =>
      match digit_of c with
      | Some v => digits_value (10 * acc + v) rest
      | None => None
      end
  end.

Definition demo_int (s : string) : option Z :=
  match s with
  | EmptyString => None
  | String "-" EmptyString => None
  | String "-" rest => option_map Z.opp (digits_value 0 rest)
  | _ => digits_value 0 s
  end.

Definition demo_runtime : Runtime :=
  {| float := Z;
     float_of_decimal := fun q => Qnum q / Zpos (Qden q);
     float_of_int := fun z => z;
     float_is_zero := fun x => x =? 0;
     float_is_finite := fun _ => true;
     py_float := demo_int;
     py_int := demo_int;
     datetime := Z;
     isoformat := fun _ => "2024-01-01T00:00:00" |}.

Definition demo_distance (a b : @geometry demo_runtime) : Z :=
  Z.abs (@geom_x demo_runtime a - @geom_x demo_runtime b)
  + Z.abs (@geom_y demo_runtime a - @geom_y demo_runtime b).

Definition demo_optional {A : Type} (read : @pyval demo_runtime -> option A)
    (v : @pyval demo_runtime) : option (option A) :=
  match v with
  | PNone => Some None
  | _ => option_map Some (read v)
  end.

Definition demo_integer (v : @pyval demo_runtime) : option Z :=
  match v with
  | PInt z => Some z
  | _ => None
  end.

Definition demo_numeric (v : @pyval demo_runtime) : option Q :=
  match v with
  | PInt z => Some (inject_Z z)
  | _ => None
  end.

Definition demo_text (v : @pyval demo_runtime) : option string :=
  match v with
  | PStr s => Some s
  | _ => None
  end.

Definition demo_accepts (a p be ba sq pt : @pyval demo_runtime) : option inserted_columns :=
  match demo_text a, demo_integer p, demo_optional demo_integer be,
        demo_optional demo_numeric ba, demo_optional demo_numeric sq,
        demo_optional demo_text pt with
  | Some a', Some p', Some be', Some ba', Some sq', Some pt' =>
      if 0 <=? p'
      then Some {| ins_address := a'; ins_price := inject_Z p'; ins_bedrooms := be';
                   ins_bathrooms := ba'; ins_square_feet := sq'; ins_property_type := pt' |}
      else None
  | _, _, _, _, _, _ => None
  end.

(** A pattern [%text%] matches the strings that contain [text]. *)
Definition demo_ilike (t pat : string) : bool :=
  match pat with
  | String "%" rest =>
      is_substring (substring 0 (String.length rest - 1) rest) t
  | _ => String.eqb t pat
  end.

Definition demo_postgis : @Postgis demo_runtime :=
  {| ST_Distance := demo_distance;
     ST_DWithin := fun a b r => demo_distance a b <=? r;
     float8_le := Z.leb;
     numeric_ge_float := fun q x => Qle_bool (inject_Z x) q;
     ilike := demo_ilike;
     table_accepts := demo_accepts;
     default_listing_status := Some "active";
     spliced_insert := fun d _ => (Raise (DatabaseError "syntax error"), d) |}.

Definition demo_time : @datetime demo_runtime := 0.

Definition demo_float (z : Z) : @float demo_runtime := z.

Definition demo_point (x y : Z) : @geometry demo_runtime :=
  @Build_geometry demo_runtime x y 4326.

(** A store that is up, with the given rows. *)
Definition demo_database (rows : list (@property demo_runtime)) (next : Z)
    : @database demo_runtime :=
  {| connect_error := None;
     fault := fun _ _ => None;
     server_version := "PostgreSQL 15.4";
     database_name := "properties";
     user_name := "postgres";
     server_now := demo_time;
     postgis_version := "3.3";
     rows := rows;
     next_id := next |}.

(** The same store when it cannot be reached. *)
Definition demo_unreachable (rows : list (@property demo_runtime)) (next : Z)
    : @database demo_runtime :=
  {| connect_error := Some "could not connect to server";
     fault := fun _ _ => None;
     server_version := "PostgreSQL 15.4";
     database_name := "properties";
     user_name := "postgres";
     server_now := demo_time;
     postgis_version := "3.3";
     rows := rows;
     next_id := next |}.

(** An active listing at the point [(x, y)]. *)
Definition demo_listing (i : Z) (cost : Z) (x y : Z) : @property demo_runtime :=
  {| id := i;
     address := "1 Main St";
     price := inject_Z cost;
     bedrooms := Some 3;
     bathrooms := None;
     square_feet := None;
     property_type := Some "house";
     listing_status := Some "active";
     location := Some (demo_point x y);
     created_at := demo_time |}.

(** A store with three listings, and a nearby search around the first
    of them that asks for two. *)
Definition demo_store : @database demo_runtime :=
  demo_database [demo_listing 1 100 0 0; demo_listing 2 50 3 4; demo_listing 3 70 1 1] 4.

Definition demo_nearby_args : list (string * string) :=
  [("lat", "0"); ("lng", "0"); ("radius", "50"); ("limit", "2")].


(** The body of an insert at latitude [lat] and longitude [lng]. *)
Definition demo_body (lat lng : @pyval demo_runtime) : list (string * @pyval demo_runtime) :=
  [ ("address", @PStr demo_runtime "1 Main St");
    ("price", @PInt demo_runtime 500000);
    ("latitude", lat);
    ("longitude", lng) ].

(** The two rows the nearby search of [demo_nearby_args] fetches from
    [demo_store]: the listing at the centre, then the one at distance 2. *)
Definition demo_nearby_rows : list (list (string * @pyval demo_runtime)) :=
  map (@candidate_row demo_runtime)
    [ (demo_listing 1 100 0 0, demo_point 0 0, demo_float 0);
      (demo_listing 3 70 1 1, demo_point 1 1, demo_float 2) ].

(** ** The texts of the two fixed statements *)

(** Lines 182-207: the statement of the nearby search. *)
Definition nearby_sql : string :=
  "
                    SELECT 
                        id,
                        address,
                        price,
                        bedrooms,
                        bathrooms,
                        square_feet,
                        property_type,
                        listing_status,
                        ST_X(location) as longitude,
                        ST_Y(location) as latitude,
                        ST_Distance(
                            location,
                            ST_GeomFromText('POINT(%s %s)', 4326)
                        ) as distance_meters,
                        created_at
                    FROM properties 
                    WHERE location IS NOT NULL
                    AND ST_DWithin(
                        location,
                        ST_GeomFromText('POINT(%s %s)', 4326),
                        %s
                    )
                    ORDER BY distance_meters
                    LIMIT %s;
                ".

(** Lines 303-310: the statement of the insert. *)
Definition insert_sql : string :=
  "
                    INSERT INTO properties (
                        address, price, bedrooms, bathrooms, square_feet,
                        property_type, location
                    ) VALUES (
                        %s, %s, %s, %s, %s, %s,
                        ST_GeomFromText('POINT(%s %s)', 4326)
                    ) RETURNING id;
                ".

(** ** Requests compared *)


(** A filter of a request holds of a row when the request does not give
    it, when its value is false as Python reads it (zero, the empty
    string), or when its test holds. *)
Definition applied {A : Type} (o : option A) (falsy test : A -> bool) : bool :=
  match o with
  | Some a => falsy a || test a
  | None => true
  end.

(** A row the filtered search of a request looks for: it is active and
    every filter of the request holds of it. *)
Definition search_matches {RT : Runtime} {PG : Postgis}
    (args : list (string * string)) (p : property) : bool :=
  holds (String.eqb "active") (listing_status p)
  && applied (arg_typed py_int args "price_min") (Z.eqb 0)
       (fun m => Qle_bool (inject_Z m) (price p))
  && applied (arg_typed py_int args "price_max") (Z.eqb 0)
       (fun m => Qle_bool (price p) (inject_Z m))
  && applied (arg_typed py_int args "bedrooms") (Z.eqb 0)
       (fun m => holds (Z.leb m) (bedrooms p))
  && applied (arg_typed py_float args "bathrooms") float_is_zero
       (fun x => holds (fun b => numeric_ge_float b x) (bathrooms p))
  && applied (dict_get args "property_type") (String.eqb "")
       (fun s => holds (fun t => ilike t (like_pattern s)) (property_type p)).

(** A body whose coordinates, when it is an object that has both, are
    written by the driver without a quote. *)
Definition unquoted_coordinates {RT : Runtime} (data : pyval) : bool :=
  match data with
  | PDict kv =>
      match dict_get kv "longitude", dict_get kv "latitude" with
      | Some x, Some y => plain_coordinate x && plain_coordinate y
      | _, _ => true
      end
  | _ => true
  end.

(** The order of [double precision] is transitive. *)
Definition float8_le_transitive {RT : Runtime} {PG : Postgis} : Prop :=
  forall x y z : float,
    float8_le x y = true -> float8_le y z = true -> float8_le x z = true.

(** The two counts of the [data_summary] section of a health report:
    [total_properties] and [properties_with_location]. *)
Definition health_counts {RT : Runtime} (body : pyval) : option (Z * Z) :=
  match response_field body "data_summary" with
  | Some summary =>
      match response_field summary "total_properties",
            response_field summary "properties_with_location" with
      | Some (PInt total), Some (PInt located) => Some (total, located)
      | _, _ => None
      end
  | None => None
  end.

(** * Properties *)

(** ** Lists: [ORDER BY] and [LIMIT] *)

Section Sorting.
Context {A : Type} (le : A -> A -> bool).

Let R (x y : A) : Prop := le x y = true.

Lemma insert_by_perm (x : A) (l : list A) : Permutation (insert_by le x l) (x :: l).
Proof.
  induction l as [| y l IH]; simpl.
  - apply Permutation_refl.
  - destruct (le x y).
    + apply Permutation_refl.
    + eapply perm_trans; [apply perm_skip, IH | apply perm_swap].
Qed.

Lemma sort_by_perm (l : list A) : Permutation (sort_by le l) l.
Proof.
  induction l as [| x l IH]; simpl.
  - constructor.
  - eapply perm_trans; [apply insert_by_perm | apply perm_skip, IH].
Qed.

Lemma sort_by_length (l : list A) : length (sort_by le l) = length l.
Proof. apply Permutation_length, sort_by_perm. Qed.

Hypothesis le_total : forall x y, le x y = true \/ le y x = true.

Lemma insert_by_head (x y : A) (l : list A) :
  R y x -> HdRel R y l -> HdRel R y (insert_by le x l).
Proof.
  intros Hyx Hhd. destruct l as [| z l]; simpl.
  - constructor. exact Hyx.
  - destruct (le x z); constructor; [exact Hyx |].
    inversion Hhd; assumption.
Qed.

Lemma insert_by_sorted (x : A) (l : list A) :
  Sorted R l -> Sorted R (insert_by le x l).
Proof.
  induction 1 as [| y l Hs IH Hhd]; simpl.
  - repeat constructor.
  - destruct (le x y) eqn:Hxy.
    + constructor; [constructor; assumption | constructor; exact Hxy].
    + constructor; [exact IH |].
      apply insert_by_head; [| exact Hhd].
      destruct (le_total x y) as [H | H]; [congruence | exact H].
Qed.

Lemma sort_by_sorted (l : list A) : Sorted R (sort_by le l).
Proof.
  induction l as [| x l IH]; simpl.
  - constructor.
  - apply insert_by_sorted, IH.
Qed.

End Sorting.

Lemma firstn_sorted {A : Type} (R : A -> A -> Prop) (n : nat) (l : list A) :
  Sorted R l -> Sorted R (firstn n l).
Proof.
  revert l. induction n as [| n IH]; intros l Hs; simpl.
  - constructor.
  - destruct Hs as [| x l Hs Hhd]; constructor.
    + apply IH, Hs.
    + destruct Hhd; destruct n; simpl; constructor; assumption.
Qed.

Lemma firstn_incl {A : Type} (n : nat) (l : list A) (x : A) :
  In x (firstn n l) -> In x l.
Proof.
  revert l. induction n as [| n IH]; intros [| y l]; simpl; try tauto.
  intros [H | H]; [left; exact H | right; apply IH, H].
Qed.

Lemma sorted_map {A B : Type} (R : A -> A -> Prop) (S : B -> B -> Prop)
    (f : A -> B) (l : list A) :
  (forall x y, R x y -> S (f x) (f y)) -> Sorted R l -> Sorted S (map f l).
Proof.
  intros Hf. induction 1 as [| x l Hs IH Hhd]; simpl; constructor.
  - exact IH.
  - destruct Hhd; simpl; constructor. apply Hf. assumption.
Qed.

(** [LIMIT n] answers with at most [n] rows, and only when [n] is not
    negative. *)
Lemma sql_limit_ok {A : Type} (n : Z) (l l' : list A) :
  sql_limit n l = Ok l' ->
  0 <= n /\ l' = firstn (Z.to_nat n) l /\ Z.of_nat (length l') <= n.
Proof.
  unfold sql_limit. destruct (n <? 0) eqn:Hn; [discriminate |].
  intros H. injection H as <-. apply Z.ltb_ge in Hn.
  repeat split; try assumption.
  rewrite length_firstn. lia.
Qed.

(** ** The two searches, step by step *)

Section Searches.
Context {RT : Runtime} {PG : Postgis}.

Lemma arg_float_raises (args : list (string * string)) (key : string) (default : float)
    (e : exn) :
  arg_float args key default = Raise e -> is_ValueError e = true.
Proof.
  unfold arg_float. destruct (dict_get args key) as [s |]; [| discriminate].
  destruct (py_float s); [discriminate |]. intros H. injection H as <-. reflexivity.
Qed.

Lemma arg_int_raises (args : list (string * string)) (key : string) (default : Z)
    (e : exn) :
  arg_int args key default = Raise e -> is_ValueError e = true.
Proof.
  unfold arg_int. destruct (dict_get args key) as [s |]; [| discriminate].
  destruct (py_int s); [discriminate |]. intros H. injection H as <-. reflexivity.
Qed.

(** The limit either search works with. *)
Lemma effective_limit_ok (args : list (string * string)) (default limit : Z) :
  effective_limit args default = Ok limit ->
  exists requested,
    arg_int args "limit" default = Ok requested /\ limit = Z.min requested 100.
Proof.
  unfold effective_limit. destruct (arg_int args "limit" default) as [n |]; [| discriminate].
  simpl. intros H. injection H as <-. exists n. auto.
Qed.

Lemma effective_limit_raises (args : list (string * string)) (default : Z) (e : exn) :
  effective_limit args default = Raise e -> is_ValueError e = true.
Proof.
  unfold effective_limit.
  destruct (arg_int args "limit" default) as [n | e'] eqn:H; [discriminate |].
  simpl. intros E. injection E as <-. eapply arg_int_raises, H.
Qed.

(** What a nearby query that succeeds has done. *)
Lemma run_nearby_ok (d : database) (lat lng : float) (radius limit : Z)
    (rs : list (list (string * pyval))) :
  run_nearby d lat lng radius limit = Ok rs ->
  exists center,
    ST_GeomFromText_POINT (PFloat lng) (PFloat lat) 4326 = Ok center /\
    0 <= limit /\
    rs = map candidate_row
           (firstn (Z.to_nat limit)
              (sort_by by_distance
                 (nearby_candidates center center (float_of_int radius) (rows d)))).
Proof.
  unfold run_nearby, execute_nearby. intros H.
  destruct (get_db_connection d); [| discriminate]. simpl in H.
  destruct (check_fault d Stmt_nearby _); [| discriminate]. simpl in H.
  destruct (ST_GeomFromText_POINT (PFloat lng) (PFloat lat) 4326) as [center |];
    [| discriminate]. simpl in H.
  destruct (sql_limit limit _) as [limited |] eqn:Hl; [| discriminate].
  simpl in H. injection H as <-.
  apply sql_limit_ok in Hl. destruct Hl as (Hn & -> & _).
  exists center. auto.
Qed.

(** The exceptions of the connection and of the store are database errors. *)
Lemma run_nearby_raises (d : database) (lat lng : float) (radius limit : Z) (e : exn) :
  run_nearby d lat lng radius limit = Raise e -> is_ValueError e = false.
Proof.
  unfold run_nearby, execute_nearby, get_db_connection, check_fault,
    ST_GeomFromText_POINT, sql_limit.
  intros H.
  repeat match type of H with
         | context [match ?x with _ => _ end] => destruct x; simpl in H
         end;
    try discriminate; injection H as <-; reflexivity.
Qed.

(** The answer of the nearby search when its four arguments are read:
    the query fails and its error is no [ValueError], or the query
    succeeds and [jsonify] raises [TypeError]; either way the handler's
    last [except] answers. *)
Lemma find_nearby_answer (args : list (string * string)) (d : database)
    (lat lng : float) (radius limit : Z) :
  arg_float args "lat" default_lat = Ok lat ->
  arg_float args "lng" default_lng = Ok lng ->
  arg_int args "radius" 1000 = Ok radius ->
  effective_limit args 10 = Ok limit ->
  find_nearby_properties args d = (500, PDict [ ("error", PStr "Search failed") ]).
Proof.
  intros Hlat Hlng Hr Hl. unfold find_nearby_properties.
  rewrite Hlat, Hlng, Hr, Hl. simpl.
  destruct (run_nearby d lat lng radius limit) as [rs | e] eqn:Hq; simpl.
  - reflexivity.
  - rewrite (run_nearby_raises _ _ _ _ _ _ Hq). reflexivity.
Qed.

(** The answer of the nearby search by the reading of its arguments. *)
Lemma find_nearby_cases (args : list (string * string)) (d : database) :
  find_nearby_properties args d
  = match arg_float args "lat" default_lat, arg_float args "lng" default_lng,
          arg_int args "radius" 1000, effective_limit args 10 with
    | Ok _, Ok _, Ok _, Ok _ => (500, PDict [ ("error", PStr "Search failed") ])
    | _, _, _, _ => (400, PDict [ ("error", PStr "Invalid coordinates or radius") ])
    end.
Proof.
  destruct (arg_float args "lat" default_lat) as [lat | e1] eqn:Hlat.
  2: { unfold find_nearby_properties. rewrite Hlat. simpl.
       rewrite (arg_float_raises _ _ _ _ Hlat). reflexivity. }
  destruct (arg_float args "lng" default_lng) as [lng | e2] eqn:Hlng.
  2: { unfold find_nearby_properties. rewrite Hlat, Hlng. simpl.
       rewrite (arg_float_raises _ _ _ _ Hlng). reflexivity. }
  destruct (arg_int args "radius" 1000) as [radius | e3] eqn:Hr.
  2: { unfold find_nearby_properties. rewrite Hlat, Hlng, Hr. simpl.
       rewrite (arg_int_raises _ _ _ _ Hr). reflexivity. }
  destruct (effective_limit args 10) as [limit | e4] eqn:Hl.
  2: { unfold find_nearby_properties. rewrite Hlat, Hlng, Hr, Hl. simpl.
       rewrite (effective_limit_raises _ _ _ Hl). reflexivity. }
  apply (find_nearby_answer _ _ _ _ _ _ Hlat Hlng Hr Hl).
Qed.

(** What a filtered query that succeeds has done. *)
Lemma run_search_ok (d : database) (conditions : list string) (params : list pyval)
    (rs : list (list (string * pyval))) :
  run_search d conditions params = Ok rs ->
  exists preds limit,
    bind_where conditions params = Ok (preds, [PInt limit]) /\
    0 <= limit /\
    rs = map search_row
           (firstn (Z.to_nat limit)
              (sort_by by_price
                 (filter (fun p => forallb (fun f => f p) preds) (rows d)))).
Proof.
  unfold run_search, execute_search. intros H.
  destruct (get_db_connection d); [| discriminate]. simpl in H.
  destruct (check_fault d Stmt_search _); [| discriminate]. simpl in H.
  destruct (bind_where conditions params) as [[preds rest] |]; [| discriminate].
  simpl in H.
  destruct rest as [| [] [|]]; try discriminate.
  destruct (sql_limit z _) as [limited |] eqn:Hl; [| discriminate].
  simpl in H. injection H as <-.
  apply sql_limit_ok in Hl. destruct Hl as (Hn & -> & _).
  exists preds, z. auto.
Qed.

(** The filtered search has one [except] clause, and every request ends
    in it: a limit that is not read, a query that fails, and [jsonify]
    after a query that succeeds. *)
Lemma search_properties_fails (args : list (string * string)) (d : database) :
  search_properties args d = (500, PDict [ ("error", PStr "Search failed") ]).
Proof.
  unfold search_properties. cbv zeta.
  destruct (effective_limit args 20) as [limit | e]; cbn [bind]; [| reflexivity].
  destruct (run_search d _ _); reflexivity.
Qed.

(** So neither search answers with HTTP 200, and no answer of either
    carries a property. *)
Lemma find_nearby_never_200 (args : list (string * string)) (d : database) :
  fst (find_nearby_properties args d) <> 200.
Proof.
  rewrite find_nearby_cases.
  destruct (arg_float args "lat" default_lat), (arg_float args "lng" default_lng),
    (arg_int args "radius" 1000), (effective_limit args 10); discriminate.
Qed.

Lemma find_nearby_no_property (args : list (string * string)) (d : database) :
  response_properties (snd (find_nearby_properties args d)) = [].
Proof.
  rewrite find_nearby_cases.
  destruct (arg_float args "lat" default_lat), (arg_float args "lng" default_lng),
    (arg_int args "radius" 1000), (effective_limit args 10); reflexivity.
Qed.


End Searches.

(** ** The result serializer *)

Section Serializer.
Context {RT : Runtime}.

(** Whatever is neither a decimal nor a timestamp, [serialize_result]
    refuses: it returns nothing unchanged. *)
Lemma serialize_result_other (v : pyval) :
  (forall d, v <> PDecimal d) -> (forall t, v <> PDatetime t) ->
  serialize_result v = Raise (TypeError "Object is not JSON serializable").
Proof.
  intros Hd Ht. destruct v; try reflexivity.
  - exfalso. apply (Hd d). reflexivity.
  - exfalso. apply (Ht t). reflexivity.
Qed.

(** C7. The result serializer maps a decimal to a float and a timestamp
    to its ISO-8601 string; of every value that is neither, it either
    returns the value unchanged or raises [TypeError]. *)
Theorem serialize_result_contract :
  (forall d, serialize_result (PDecimal d) = Ok (PFloat (float_of_decimal d))) /\
  (forall t, serialize_result (PDatetime t) = Ok (PStr (isoformat t))) /\
  (forall v, (forall d, v <> PDecimal d) -> (forall t, v <> PDatetime t) ->
     serialize_result v = Ok v \/ exists msg, serialize_result v = Raise (TypeError msg)).
Proof.
  repeat split; try reflexivity.
  intros v Hd Ht. right. eexists. apply serialize_result_other; assumption.
Qed.

End Serializer.

(** ** The health check *)

Section Health.
Context {RT : Runtime} {PG : Postgis}.

Lemma health_check_unhealthy_connect (d : database) (clock : datetime) (msg : string) :
  connect_error d = Some msg ->
  health_check d clock = (500, unhealthy_body msg clock).
Proof.
  intros H. unfold health_check, get_db_connection. rewrite H. reflexivity.
Qed.

Lemma health_check_cases (d : database) (clock : datetime) :
  match connect_error d, fault d Stmt_server_info [], fault d Stmt_postgis_version [],
        fault d Stmt_counts [] with
  | Some msg, _, _, _
  | None, Some msg, _, _
  | None, None, Some msg, _
  | None, None, None, Some msg => health_check d clock = (500, unhealthy_body msg clock)
  | None, None, None, None => health_check d clock = (200, healthy_body d clock)
  end.
Proof.
  unfold health_check, get_db_connection, probe_server_info, probe_postgis_version,
    probe_counts, check_fault.
  destruct (connect_error d); [reflexivity |].
  destruct (fault d Stmt_server_info []); [reflexivity |].
  destruct (fault d Stmt_postgis_version []); [reflexivity |].
  destruct (fault d Stmt_counts []); reflexivity.
Qed.


End Health.

(** ** The answers of the two searches *)

Section Answers.
Context {RT : Runtime} {PG : Postgis}.

Lemma arg_float_invalid (args : list (string * string)) (key s : string) (default : float) :
  dict_get args key = Some s -> py_float s = None ->
  exists e, arg_float args key default = Raise e.
Proof. intros H1 H2. unfold arg_float. rewrite H1, H2. eexists. reflexivity. Qed.

Lemma arg_int_invalid (args : list (string * string)) (key s : string) (default : Z) :
  dict_get args key = Some s -> py_int s = None ->
  exists e, arg_int args key default = Raise e.
Proof. intros H1 H2. unfold arg_int. rewrite H1, H2. eexists. reflexivity. Qed.

(** A latitude, a longitude or a radius that does not read as a number
    stops the request before the store is asked. *)
Lemma find_nearby_invalid (args : list (string * string)) (d : database) :
  (exists e, arg_float args "lat" default_lat = Raise e) \/
  (exists e, arg_float args "lng" default_lng = Raise e) \/
  (exists e, arg_int args "radius" 1000 = Raise e) ->
  find_nearby_properties args d
  = (400, PDict [ ("error", PStr "Invalid coordinates or radius") ]).
Proof.
  intros H. unfold find_nearby_properties.
  destruct (arg_float args "lat" default_lat) as [lat | e1] eqn:Hlat;
    [| simpl; rewrite (arg_float_raises _ _ _ _ Hlat); reflexivity].
  destruct (arg_float args "lng" default_lng) as [lng | e2] eqn:Hlng;
    [| simpl; rewrite (arg_float_raises _ _ _ _ Hlng); reflexivity].
  destruct (arg_int args "radius" 1000) as [radius | e3] eqn:Hr;
    [| simpl; rewrite (arg_int_raises _ _ _ _ Hr); reflexivity].
  destruct H as [[e H] | [[e H] | [e H]]]; discriminate.
Qed.

(** C8, where the code departs from it. A nearby search with a [lat],
    [lng] or [radius] that is not a number is answered with HTTP 400 and
    a validation error, and a failure of the store during the search is
    answered with HTTP 500 and one fixed message, whatever the failure
    was. But a search whose query succeeds, whether it finds rows or
    none, is answered with that same HTTP 500: [jsonify] is called with
    the body and a keyword argument, and raises. *)
Theorem find_nearby_error_handling (args : list (string * string)) (d : database) :
  (forall key s, In key ["lat"; "lng"] -> dict_get args key = Some s ->
     py_float s = None ->
     find_nearby_properties args d
     = (400, PDict [ ("error", PStr "Invalid coordinates or radius") ])) /\
  (forall s, dict_get args "radius" = Some s -> py_int s = None ->
     find_nearby_properties args d
     = (400, PDict [ ("error", PStr "Invalid coordinates or radius") ])) /\
  (forall lat lng radius limit e,
     arg_float args "lat" default_lat = Ok lat ->
     arg_float args "lng" default_lng = Ok lng ->
     arg_int args "radius" 1000 = Ok radius ->
     effective_limit args 10 = Ok limit ->
     run_nearby d lat lng radius limit = Raise e ->
     find_nearby_properties args d = (500, PDict [ ("error", PStr "Search failed") ])) /\
  (forall lat lng radius limit rs,
     arg_float args "lat" default_lat = Ok lat ->
     arg_float args "lng" default_lng = Ok lng ->
     arg_int args "radius" 1000 = Ok radius ->
     effective_limit args 10 = Ok limit ->
     run_nearby d lat lng radius limit = Ok rs ->
     find_nearby_properties args d = (500, PDict [ ("error", PStr "Search failed") ])).
Proof.
  repeat split.
  - intros key s Hkey Hs Hbad. apply find_nearby_invalid.
    destruct Hkey as [<- | [<- | []]].
    + left. eapply arg_float_invalid; eassumption.
    + right; left. eapply arg_float_invalid; eassumption.
  - intros s Hs Hbad. apply find_nearby_invalid.
    right; right. eapply arg_int_invalid; eassumption.
  - intros lat lng radius limit e Hlat Hlng Hr Hl _.
    apply (find_nearby_answer _ _ _ _ _ _ Hlat Hlng Hr Hl).
  - intros lat lng radius limit rs Hlat Hlng Hr Hl _.
    apply (find_nearby_answer _ _ _ _ _ _ Hlat Hlng Hr Hl).
Qed.

(** ** The builder of the filtered search *)

Lemma build_search_shape (price_min price_max bedrooms : option Z)
    (bathrooms : option float) (property_type : option string) (limit : Z) :
  build_search price_min price_max bedrooms bathrooms property_type limit
  = ("listing_status = 'active'"
       :: map fst (supplied_filters price_min price_max bedrooms bathrooms property_type),
     (map snd (supplied_filters price_min price_max bedrooms bathrooms property_type)
        ++ [PInt limit])%list).
Proof.
  unfold build_search, supplied_filters, append_filter.
  destruct (truthy_int price_min), (truthy_int price_max), (truthy_int bedrooms),
    (truthy_float bathrooms), (truthy_str property_type); reflexivity.
Qed.

(** Binding the whole statement by position gives each of the five
    conditions, when it is there, the value that goes with it. *)
Lemma bind_placeholders_search (b1 b2 b3 b4 b5 : bool) (v1 v2 v3 v4 v5 : pyval)
    (limit : Z) :
  let fs := ((if b1 then [("price >= %s", v1)] else []) ++
             (if b2 then [("price <= %s", v2)] else []) ++
             (if b3 then [("bedrooms >= %s", v3)] else []) ++
             (if b4 then [("bathrooms >= %s", v4)] else []) ++
             (if b5 then [("property_type ILIKE %s", v5)] else []))%list in
  bind_placeholders (search_query ("listing_status = 'active'" :: map fst fs))
    (map snd fs ++ [PInt limit])%list
  = Some (bound_search_query fs limit).
Proof.
  destruct b1, b2, b3, b4, b5; vm_compute; reflexivity.
Qed.

(** C5. The parameters of the filtered search are the values of the
    conditions that were appended, in the order of their conditions
    (price-min, price-max, bedrooms, bathrooms, property-type), with the
    limit last; bound by position, every placeholder of the statement
    takes the value of its own condition. *)
Theorem search_parameters_follow_conditions (price_min price_max bedrooms : option Z)
    (bathrooms : option float) (property_type : option string) (limit : Z) :
  fst (build_search price_min price_max bedrooms bathrooms property_type limit)
  = "listing_status = 'active'"
      :: map fst (supplied_filters price_min price_max bedrooms bathrooms property_type) /\
  snd (build_search price_min price_max bedrooms bathrooms property_type limit)
  = (map snd (supplied_filters price_min price_max bedrooms bathrooms property_type)
       ++ [PInt limit])%list /\
  bind_placeholders
    (search_query
       (fst (build_search price_min price_max bedrooms bathrooms property_type limit)))
    (snd (build_search price_min price_max bedrooms bathrooms property_type limit))
  = Some (bound_search_query
            (supplied_filters price_min price_max bedrooms bathrooms property_type)
            limit).
Proof.
  rewrite build_search_shape. cbn [fst snd].
  split; [reflexivity |]. split; [reflexivity |].
  apply bind_placeholders_search.
Qed.

(** A condition takes its parameter from the front and leaves the rest. *)
Lemma bind_condition_suffix (c : string) (params rest : list pyval)
    (f : property -> bool) :
  bind_condition c params = Ok (f, rest) ->
  exists used, params = (used ++ rest)%list.
Proof.
  unfold bind_condition. intros H.
  destruct (String.eqb c "listing_status = 'active'").
  { injection H as _ <-. exists []. reflexivity. }
  destruct params as [| v params]; [discriminate |].
  exists [v]. simpl. f_equal.
  repeat match type of H with
         | context [if ?b then _ else _] => destruct b
         end;
    destruct v; try discriminate; injection H as _ <-; reflexivity.
Qed.

Lemma bind_where_suffix (conditions : list string) (params rest : list pyval)
    (preds : list (property -> bool)) :
  bind_where conditions params = Ok (preds, rest) ->
  exists used, params = (used ++ rest)%list.
Proof.
  revert params preds. induction conditions as [| c cs IH]; intros params preds H.
  - simpl in H. injection H as _ <-. exists []. reflexivity.
  - simpl in H.
    destruct (bind_condition c params) as [[f r1] |] eqn:Hc; [| discriminate].
    simpl in H.
    destruct (bind_where cs r1) as [[fs r2] |] eqn:Hw; [| discriminate].
    simpl in H. injection H as _ <-.
    apply bind_condition_suffix in Hc. destruct Hc as (u1 & ->).
    apply IH in Hw. destruct Hw as (u2 & ->).
    exists (u1 ++ u2)%list. rewrite app_assoc. reflexivity.
Qed.

(** The limit a filtered query is cut at is the limit of the request. *)
Lemma run_search_limit (args : list (string * string)) (d : database) (limit : Z)
    (rs : list (list (string * pyval))) :
  run_search d (fst (search_request args limit)) (snd (search_request args limit)) = Ok rs ->
  0 <= limit /\ Z.of_nat (length rs) <= limit.
Proof.
  intros H. apply run_search_ok in H.
  destruct H as (preds & limit' & Hb & Hn & ->).
  apply bind_where_suffix in Hb. destruct Hb as (used & Hb).
  unfold search_request in Hb. rewrite build_search_shape in Hb. cbn [snd] in Hb.
  apply app_inj_tail in Hb. destruct Hb as (_ & Hb). injection Hb as <-.
  split; [exact Hn |].
  rewrite !length_map, length_firstn.
  match goal with |- context [Init.Nat.min _ ?b] => generalize b; intros n end. lia.
Qed.

(** The body a search builds of the rows it has fetched carries these
    rows and their number. *)
Lemma nearby_body_properties (lat lng : float) (radius : Z)
    (rs : list (list (string * pyval))) :
  response_properties (nearby_body lat lng radius rs) = map PDict rs.
Proof. reflexivity. Qed.

Lemma search_body_properties (args : list (string * string))
    (rs : list (list (string * pyval))) :
  response_properties (search_answer_body args rs) = map PDict rs.
Proof. reflexivity. Qed.

Lemma nearby_candidates_spec (center within : geometry) (radius : float)
    (l : list property) :
  Forall (fun c => In (fst (fst c)) l /\
                   location (fst (fst c)) = Some (snd (fst c)) /\
                   ST_DWithin (snd (fst c)) within radius = true /\
                   snd c = ST_Distance (snd (fst c)) center)
         (nearby_candidates center within radius l).
Proof.
  induction l as [| p l IH]; simpl.
  - constructor.
  - assert (IH' : Forall (fun c => In (fst (fst c)) (p :: l) /\
                   location (fst (fst c)) = Some (snd (fst c)) /\
                   ST_DWithin (snd (fst c)) within radius = true /\
                   snd c = ST_Distance (snd (fst c)) center)
         (nearby_candidates center within radius l)).
    { eapply Forall_impl; [| exact IH]. simpl. intros c (H1 & H2). auto. }
    destruct (location p) as [g |] eqn:Hg; [| exact IH'].
    destruct (ST_DWithin g within radius) eqn:Hw; [| exact IH'].
    constructor; [| exact IH']. simpl. auto.
Qed.

Lemma candidate_row_distance (c : property * geometry * float) :
  distance_of (PDict (candidate_row c)) = Some (snd c).
Proof. reflexivity. Qed.

Lemma candidate_row_coordinates (c : property * geometry * float) :
  property_field (PDict (candidate_row c)) "longitude"
  = Some (PFloat (geom_x (snd (fst c)))) /\
  property_field (PDict (candidate_row c)) "latitude"
  = Some (PFloat (geom_y (snd (fst c)))).
Proof. split; reflexivity. Qed.

(** C2. Every property in the list a nearby search fetches for a valid
    request (the handler's [properties], the rows its statement returns)
    has a [distance_meters] that is at most the requested radius, the list
    is in non-decreasing order of [distance_meters], and every property
    in it has a location (its longitude and latitude are numbers, not
    null). The answer the handler then sends carries no property. *)
Theorem nearby_within_radius_sorted
    (Hwithin : dwithin_bounds_distance) (Htotal : float8_le_total)
    (args : list (string * string)) (d : database)
    (lat lng : float) (radius limit : Z) (rs : list (list (string * pyval))) :
  arg_float args "lat" default_lat = Ok lat ->
  arg_float args "lng" default_lng = Ok lng ->
  arg_int args "radius" 1000 = Ok radius ->
  effective_limit args 10 = Ok limit ->
  run_nearby d lat lng radius limit = Ok rs ->
  (exists distances,
     map distance_of (map PDict rs) = map Some distances /\
     Forall (fun x => float8_le x (float_of_int radius) = true) distances /\
     Sorted (fun x y => float8_le x y = true) distances /\
     Forall (fun p => exists x y,
               property_field p "longitude" = Some (PFloat x) /\
               property_field p "latitude" = Some (PFloat y))
            (map PDict rs)) /\
  response_properties (snd (find_nearby_properties args d)) = [].
Proof.
  intros Hlat Hlng Hr Hl Hq. split.
  - apply run_nearby_ok in Hq. destruct Hq as (center & _ & _ & ->).
    set (found := nearby_candidates center center (float_of_int radius) (rows d)).
    set (limited := firstn (Z.to_nat limit) (sort_by by_distance found)).
    exists (map snd limited).
    rewrite !map_map.
    split; [| split; [| split]].
    + apply map_ext. intros c. apply candidate_row_distance.
    + apply Forall_forall. intros x Hx. apply in_map_iff in Hx.
      destruct Hx as (c & <- & Hc). apply firstn_incl in Hc.
      apply (Permutation_in _ (sort_by_perm by_distance found)) in Hc.
      pose proof (nearby_candidates_spec center center (float_of_int radius) (rows d)) as Hs.
      rewrite Forall_forall in Hs. destruct (Hs c Hc) as (_ & _ & Hw & ->).
      apply Hwithin, Hw.
    + apply (sorted_map (fun a b => by_distance a b = true)); [auto |].
      apply firstn_sorted, sort_by_sorted.
      intros x y. apply Htotal.
    + apply Forall_forall. intros p Hp. apply in_map_iff in Hp.
      destruct Hp as (c & <- & _).
      exists (geom_x (snd (fst c))), (geom_y (snd (fst c))).
      apply candidate_row_coordinates.
  - apply find_nearby_no_property.
Qed.


(** C10. In both searches the [total_found] of the body the handler
    builds for a successful response is the number of elements of its
    [properties] array, which are the rows fetched under the limit, at
    most 100; it is not the number of rows of the store that match. The
    body is not sent: no response of either search has status 200. *)
Theorem total_found_counts_returned (args : list (string * string)) (d : database) :
  (forall lat lng radius limit rs,
     effective_limit args 10 = Ok limit ->
     run_nearby d lat lng radius limit = Ok rs ->
     response_field (nearby_body lat lng radius rs) "total_found"
     = Some (PInt (Z.of_nat (length (response_properties (nearby_body lat lng radius rs))))) /\
     response_properties (nearby_body lat lng radius rs) = map PDict rs /\
     Z.of_nat (length rs) <= 100) /\
  (forall limit rs,
     effective_limit args 20 = Ok limit ->
     run_search d (fst (search_request args limit)) (snd (search_request args limit))
     = Ok rs ->
     response_field (search_answer_body args rs) "total_found"
     = Some (PInt (Z.of_nat (length (response_properties (search_answer_body args rs))))) /\
     response_properties (search_answer_body args rs) = map PDict rs /\
     Z.of_nat (length rs) <= 100) /\
  fst (find_nearby_properties args d) <> 200 /\
  fst (search_properties args d) <> 200.
Proof.
  split; [| split; [| split]].
  - intros lat lng radius limit rs Hl Hq.
    rewrite nearby_body_properties, length_map.
    split; [reflexivity |]. split; [reflexivity |].
    apply effective_limit_ok in Hl. destruct Hl as (requested & _ & ->).
    apply run_nearby_ok in Hq. destruct Hq as (center & _ & Hn & ->).
    rewrite !length_map, length_firstn.
    match goal with |- context [Init.Nat.min _ ?b] => generalize b; intros n end. lia.
  - intros limit rs Hl Hq.
    rewrite search_body_properties, length_map.
    split; [reflexivity |]. split; [reflexivity |].
    apply effective_limit_ok in Hl. destruct Hl as (requested & _ & ->).
    apply run_search_limit in Hq. lia.
  - apply find_nearby_never_200.
  - rewrite search_properties_fails. discriminate.
Qed.

End Answers.
(** ** The insert *)

Section Insert.
Context {RT : Runtime} {PG : Postgis}.

Lemma all_in_dict (kv : list (string * pyval)) (fields : list string) :
  all_in (PDict kv) fields = Ok (forallb (dict_has kv) fields).
Proof.
  induction fields as [| f fs IH]; simpl.
  - reflexivity.
  - destruct (dict_has kv f); simpl; [exact IH | reflexivity].
Qed.

Lemma dict_has_get {V : Type} (kv : list (string * V)) (key : string) :
  dict_has kv key = true -> exists v, dict_get kv key = Some v.
Proof.
  unfold dict_has. destruct (dict_get kv key) as [v |]; [| discriminate].
  intros _. exists v. reflexivity.
Qed.

(** The parameters the handler binds to the insert, for a body that has
    the four required keys. *)
Lemma insert_params_dict (kv : list (string * pyval)) (a p x y : pyval) :
  dict_get kv "address" = Some a -> dict_get kv "price" = Some p ->
  dict_get kv "longitude" = Some x -> dict_get kv "latitude" = Some y ->
  insert_params (PDict kv)
  = Ok [ a; p;
         dict_get_default kv "bedrooms" PNone;
         dict_get_default kv "bathrooms" PNone;
         dict_get_default kv "square_feet" PNone;
         dict_get_default kv "property_type" (PStr "Unknown");
         x; y ].
Proof.
  intros Ha Hp Hx Hy. unfold insert_params, py_getitem, py_get, dict_get_default.
  rewrite Ha, Hp, Hx, Hy. simpl.
  destruct (dict_get kv "bedrooms"), (dict_get kv "bathrooms"),
    (dict_get kv "square_feet"), (dict_get kv "property_type"); reflexivity.
Qed.


(** What the [INSERT] does when both coordinates are written without a
    quote and it succeeds. *)
Lemma execute_insert_ok (d d' : database) (a p be ba sq pt x y : pyval) (new_id : Z) :
  plain_coordinate x = true -> plain_coordinate y = true ->
  execute_insert d [a; p; be; ba; sq; pt; x; y] = (Ok new_id, d') ->
  exists g c,
    ST_GeomFromText_POINT x y 4326 = Ok g /\
    table_accepts a p be ba sq pt = Some c /\
    new_id = next_id d /\
    rows d' = (rows d ++ [inserted_row d c g])%list /\
    next_id d' = next_id d + 1.
Proof.
  unfold execute_insert. intros Hx Hy. rewrite Hx, Hy. cbn [andb].
  destruct (check_fault d Stmt_insert _); [| discriminate]. cbn [bind].
  destruct (ST_GeomFromText_POINT x y 4326) as [g |]; [| discriminate]. cbn [bind].
  destruct (table_accepts a p be ba sq pt) as [c |]; [| discriminate].
  intros H. injection H as <- <-. exists g, c. simpl. auto.
Qed.


Lemma add_property_missing (kv : list (string * pyval)) (d : database) :
  forallb (dict_has kv) required_fields = false ->
  add_property (PDict kv) d
  = ((400, PDict [ ("error", PStr "Missing required fields") ]), d).
Proof.
  intros H. unfold add_property. rewrite all_in_dict, H. reflexivity.
Qed.

Lemma add_property_complete (kv : list (string * pyval)) (d : database) :
  forallb (dict_has kv) required_fields = true ->
  add_property (PDict kv) d
  = match (_ <- get_db_connection d ;; insert_params (PDict kv)) with
    | Ok params =>
        match execute_insert d params with
        | (Ok new_id, d') =>
            ((201, PDict [ ("success", PBool true);
                           ("property_id", PInt new_id);
                           ("message", PStr "Property added successfully") ]), d')
        | (Raise _, d') => ((500, PDict [ ("error", PStr "Failed to add property") ]), d')
        end
    | Raise _ => ((500, PDict [ ("error", PStr "Failed to add property") ]), d)
    end.
Proof.
  intros H. unfold add_property. rewrite all_in_dict, H. simpl.
  destruct (get_db_connection d); simpl; [| reflexivity].
  destruct (insert_params (PDict kv)) as [params |]; reflexivity.
Qed.


Lemma nearby_candidates_in (center within : geometry) (radius : float)
    (l : list property) (p : property) (g : geometry) :
  In p l -> location p = Some g -> ST_DWithin g within radius = true ->
  In (p, g, ST_Distance g center) (nearby_candidates center within radius l).
Proof.
  intros Hin Hg Hw. induction l as [| q l IH]; simpl in *; [contradiction |].
  destruct Hin as [-> | Hin].
  - rewrite Hg, Hw. left. reflexivity.
  - destruct (location q) as [g' |]; [| auto].
    destruct (ST_DWithin g' within radius); [right |]; auto.
Qed.

End Insert.

(** ** The service on the small store *)

Lemma demo_dwithin_bounds_distance : @dwithin_bounds_distance demo_runtime demo_postgis.
Proof. intros a b r H. exact H. Qed.

Lemma demo_float8_le_total : @float8_le_total demo_runtime demo_postgis.
Proof.
  intros x y. simpl. destruct (Z.leb_spec x y) as [H | H].
  - left. reflexivity.
  - right. apply Z.leb_le. lia.
Qed.

Lemma demo_point_within_itself : @point_within_itself demo_runtime demo_postgis.
Proof.
  intros g r Hr. simpl. unfold demo_distance. rewrite !Z.sub_diag. simpl.
  apply Z.leb_le. exact Hr.
Qed.

Lemma nearby_within_radius_sorted_witness :
  (exists distances,
     map (@distance_of demo_runtime) (map PDict demo_nearby_rows) = map Some distances /\
     Forall (fun x => @float8_le demo_runtime demo_postgis x
                        (@float_of_int demo_runtime 50) = true) distances /\
     Sorted (fun x y => @float8_le demo_runtime demo_postgis x y = true) distances /\
     Forall (fun p => exists x y,
               property_field p "longitude" = Some (@PFloat demo_runtime x) /\
               property_field p "latitude" = Some (@PFloat demo_runtime y))
            (map PDict demo_nearby_rows)) /\
  response_properties (snd (@find_nearby_properties demo_runtime demo_postgis
                              demo_nearby_args demo_store)) = [].
Proof.
  apply (@nearby_within_radius_sorted demo_runtime demo_postgis
           demo_dwithin_bounds_distance demo_float8_le_total
           demo_nearby_args demo_store (demo_float 0) (demo_float 0) 50 2 demo_nearby_rows);
    reflexivity.
Defined.


Lemma total_found_counts_returned_witness :
  response_field (@nearby_body demo_runtime (demo_float 0) (demo_float 0) 50 demo_nearby_rows)
    "total_found"
  = Some (PInt (Z.of_nat (length (response_properties
                                    (@nearby_body demo_runtime (demo_float 0) (demo_float 0)
                                       50 demo_nearby_rows))))) /\
  response_properties (@nearby_body demo_runtime (demo_float 0) (demo_float 0) 50
                         demo_nearby_rows)
  = map PDict demo_nearby_rows /\
  Z.of_nat (length demo_nearby_rows) <= 100.
Proof.
  apply (proj1 (@total_found_counts_returned demo_runtime demo_postgis
                  demo_nearby_args demo_store)
           (demo_float 0) (demo_float 0) 50 2 demo_nearby_rows);
    reflexivity.
Defined.

Lemma find_nearby_error_handling_witness :
  @find_nearby_properties demo_runtime demo_postgis [("lat", "north")] demo_store
  = (400, PDict [ ("error", PStr "Invalid coordinates or radius") ]) /\
  @find_nearby_properties demo_runtime demo_postgis [("radius", "1.5")] demo_store
  = (400, PDict [ ("error", PStr "Invalid coordinates or radius") ]) /\
  @find_nearby_properties demo_runtime demo_postgis [] (demo_unreachable [] 1)
  = (500, PDict [ ("error", PStr "Search failed") ]) /\
  @find_nearby_properties demo_runtime demo_postgis
    [("lat", "37"); ("lng", "-122"); ("radius", "500"); ("limit", "5")]
    (demo_database [] 1)
  = (500, PDict [ ("error", PStr "Search failed") ]).
Proof.
  split; [| split; [| split]].
  - apply (proj1 (@find_nearby_error_handling demo_runtime demo_postgis
                    [("lat", "north")] demo_store) "lat" "north");
      [left | |]; reflexivity.
  - apply (proj1 (proj2 (@find_nearby_error_handling demo_runtime demo_postgis
                           [("radius", "1.5")] demo_store)) "1.5"); reflexivity.
  - apply (proj1 (proj2 (proj2 (@find_nearby_error_handling demo_runtime demo_postgis
                                  [] (demo_unreachable [] 1))))
             (@default_lat demo_runtime) (@default_lng demo_runtime) 1000 10
             (DatabaseError "could not connect to server")); reflexivity.
  - apply (proj2 (proj2 (proj2 (@find_nearby_error_handling demo_runtime demo_postgis
             [("lat", "37"); ("lng", "-122"); ("radius", "500"); ("limit", "5")]
             (demo_database [] 1)))) (demo_float 37) (demo_float (-122)) 500 5 []);
      reflexivity.
Defined.


Lemma serialize_result_contract_witness :
  @serialize_result demo_runtime (PInt 5) = Ok (PInt 5) \/
  exists msg, @serialize_result demo_runtime (PInt 5) = Raise (TypeError msg).
Proof.
  apply (proj2 (proj2 (@serialize_result_contract demo_runtime)));
    intros ? H; discriminate H.
Defined.

(** C1, where the code departs from it. On a request with [price_max=0]
    the builder appends no condition for the price: the statement the
    search runs has the one condition on [listing_status], and it
    fetches a listing priced at 100. (The search is then answered with
    HTTP 500, as every filtered search is.) *)
Theorem search_ignores_zero_price_max :
  (forall (RT : Runtime) (limit : Z),
     build_search None (Some 0) None None None limit
     = (["listing_status = 'active'"], [PInt limit])) /\
  @search_request demo_runtime [("price_max", "0")] 20
  = (["listing_status = 'active'"], [PInt 20]) /\
  @run_search demo_runtime demo_postgis (demo_database [demo_listing 1 100 0 0] 2)
    ["listing_status = 'active'"] [PInt 20]
  = Ok [ @search_row demo_runtime (demo_listing 1 100 0 0) ] /\
  @search_properties demo_runtime demo_postgis [("price_max", "0")]
    (demo_database [demo_listing 1 100 0 0] 2)
  = (500, PDict [ ("error", PStr "Search failed") ]).
Proof.
  split; [intros RT limit; reflexivity |].
  split; [reflexivity |]. split; reflexivity.
Qed.



(** C6, where the code departs from it. An insert at latitude 37 and
    longitude -122 is answered with HTTP 201 and stores the point with
    the longitude as X and the latitude as Y; the statement of a nearby
    search centred there with radius 0 fetches the new row; and the
    search is answered with HTTP 500, not with the property: [jsonify]
    refuses the call that ends the handler, for this request as for
    every other. *)
Theorem insert_then_nearby_search_fails :
  fst (@add_property demo_runtime demo_postgis
         (PDict (demo_body (PInt 37) (PInt (-122)))) demo_store)
  = (201, PDict [ ("success", PBool true);
                  ("property_id", PInt 4);
                  ("message", PStr "Property added successfully") ]) /\
  map (fun p => (id p, location p))
    (rows (snd (@add_property demo_runtime demo_postgis
                  (PDict (demo_body (PInt 37) (PInt (-122)))) demo_store)))
  = [ (1, Some (demo_point 0 0)); (2, Some (demo_point 3 4)); (3, Some (demo_point 1 1));
      (4, Some (demo_point (-122) 37)) ] /\
  (exists rs,
     @run_nearby demo_runtime demo_postgis
       (snd (@add_property demo_runtime demo_postgis
               (PDict (demo_body (PInt 37) (PInt (-122)))) demo_store))
       (demo_float 37) (demo_float (-122)) 0 10 = Ok rs /\
     map (fun row => dict_get row "id") rs = [Some (PInt 4)]) /\
  @find_nearby_properties demo_runtime demo_postgis
    [("lat", "37"); ("lng", "-122"); ("radius", "0")]
    (snd (@add_property demo_runtime demo_postgis
            (PDict (demo_body (PInt 37) (PInt (-122)))) demo_store))
  = (500, PDict [ ("error", PStr "Search failed") ]) /\
  (forall (RT : Runtime) (PG : Postgis) (args : list (string * string)) (d : database),
     fst (find_nearby_properties args d) <> 200).
Proof.
  split; [reflexivity |]. split; [reflexivity |].
  split; [eexists; split; reflexivity |].
  split; [reflexivity |].
  intros RT PG args d. apply find_nearby_never_200.
Qed.
(** ** The filters of the filtered search that are applied *)

Section Filters.
Context {RT : Runtime} {PG : Postgis}.

Lemma holds_true {A : Type} (f : A -> bool) (o : option A) :
  holds f o = true -> exists a, o = Some a /\ f a = true.
Proof. destruct o as [a |]; simpl; [eauto | discriminate]. Qed.

Lemma holds_eqb (s : string) (o : option string) :
  holds (String.eqb s) o = true -> o = Some s.
Proof.
  destruct o as [t |]; simpl; [| discriminate].
  intros E. apply String.eqb_eq in E. subst t. reflexivity.
Qed.

(** The conditions of the statement, bound by position, are the
    predicates of the filters that were appended. *)
Lemma bind_where_search (b1 b2 b3 b4 b5 : bool) (m1 m2 m3 : Z) (x : float)
    (pat : string) (limit : Z) :
  let fs := ((if b1 then [("price >= %s", PInt m1)] else []) ++
             (if b2 then [("price <= %s", PInt m2)] else []) ++
             (if b3 then [("bedrooms >= %s", PInt m3)] else []) ++
             (if b4 then [("bathrooms >= %s", PFloat x)] else []) ++
             (if b5 then [("property_type ILIKE %s", PStr pat)] else []))%list in
  bind_where ("listing_status = 'active'" :: map fst fs) (map snd fs ++ [PInt limit])%list
  = Ok (((fun p => holds (String.eqb "active") (listing_status p)) ::
         (if b1 then [fun p => Qle_bool (inject_Z m1) (price p)] else []) ++
         (if b2 then [fun p => Qle_bool (price p) (inject_Z m2)] else []) ++
         (if b3 then [fun p => holds (Z.leb m3) (bedrooms p)] else []) ++
         (if b4 then [fun p => holds (fun b => numeric_ge_float b x) (bathrooms p)] else []) ++
         (if b5 then [fun p => holds (fun t => ilike t pat) (property_type p)] else []))%list,
        [PInt limit]).
Proof. destruct b1, b2, b3, b4, b5; reflexivity. Qed.

Lemma supplied_filters_shape (price_min price_max bedrooms : option Z)
    (bathrooms : option float) (property_type : option string) (zero : float) :
  supplied_filters price_min price_max bedrooms bathrooms property_type
  = ((if truthy_int price_min
      then [("price >= %s", PInt (or_default price_min 0))] else []) ++
     (if truthy_int price_max
      then [("price <= %s", PInt (or_default price_max 0))] else []) ++
     (if truthy_int bedrooms
      then [("bedrooms >= %s", PInt (or_default bedrooms 0))] else []) ++
     (if truthy_float bathrooms
      then [("bathrooms >= %s", PFloat (or_default bathrooms zero))] else []) ++
     (if truthy_str property_type
      then [("property_type ILIKE %s",
             PStr (like_pattern (or_default property_type "")))] else []))%list.
Proof.
  unfold supplied_filters.
  destruct price_min, price_max, bedrooms, bathrooms, property_type; reflexivity.
Qed.

Lemma forallb_filters (p : property) (b1 b2 b3 b4 b5 : bool)
    (f0 f1 f2 f3 f4 f5 : property -> bool) :
  forallb (fun f => f p)
    (f0 :: (if b1 then [f1] else []) ++ (if b2 then [f2] else []) ++
           (if b3 then [f3] else []) ++ (if b4 then [f4] else []) ++
           (if b5 then [f5] else []))%list = true ->
  f0 p = true /\ (b1 = true -> f1 p = true) /\ (b2 = true -> f2 p = true) /\
  (b3 = true -> f3 p = true) /\ (b4 = true -> f4 p = true) /\
  (b5 = true -> f5 p = true).
Proof.
  destruct b1, b2, b3, b4, b5; simpl; rewrite ?andb_true_iff;
    intuition discriminate.
Qed.

(** X1. Every row the statement of a filtered search fetches is a row of
    the store whose [listing_status] is 'active' and which satisfies each
    filter whose value is not zero and not empty: the price bounds, the
    least numbers of bedrooms and of bathrooms, and the pattern on the
    property type. *)
Theorem search_results_satisfy_applied_filters (args : list (string * string))
    (d : database) (limit : Z) (rs : list (list (string * pyval))) :
  run_search d (fst (search_request args limit)) (snd (search_request args limit)) = Ok rs ->
  exists found,
    rs = map search_row found /\
    Forall (fun p =>
              In p (rows d) /\
              listing_status p = Some "active" /\
              (forall m, arg_typed py_int args "price_min" = Some m -> m <> 0 ->
                 Qle_bool (inject_Z m) (price p) = true) /\
              (forall m, arg_typed py_int args "price_max" = Some m -> m <> 0 ->
                 Qle_bool (price p) (inject_Z m) = true) /\
              (forall m, arg_typed py_int args "bedrooms" = Some m -> m <> 0 ->
                 exists b, bedrooms p = Some b /\ m <= b) /\
              (forall x, arg_typed py_float args "bathrooms" = Some x ->
                 float_is_zero x = false ->
                 exists b, bathrooms p = Some b /\ numeric_ge_float b x = true) /\
              (forall s, dict_get args "property_type" = Some s -> s <> "" ->
                 exists t, property_type p = Some t /\
                           ilike t (like_pattern s) = true))
           found.
Proof.
  intros Hq.
  apply run_search_ok in Hq. destruct Hq as (preds & limit' & Hb & _ & ->).
  eexists. split; [reflexivity |].
  apply Forall_forall. intros p Hp. apply firstn_incl in Hp.
  apply (Permutation_in _ (sort_by_perm by_price _)) in Hp.
  apply filter_In in Hp. destruct Hp as (Hin & Hp).
  split; [exact Hin |].
  unfold search_request in Hb. rewrite build_search_shape in Hb. cbn [fst snd] in Hb.
  rewrite (supplied_filters_shape _ _ _ _ _ default_lat) in Hb.
  rewrite bind_where_search in Hb. injection Hb as <- _.
  apply forallb_filters in Hp.
  destruct Hp as (H0 & H1 & H2 & H3 & H4 & H5).
  split; [| split; [| split; [| split; [| split]]]].
  - apply holds_eqb, H0.
  - intros m E Hm. rewrite E in H1. apply H1. simpl.
    destruct (Z.eqb_spec m 0); [contradiction | reflexivity].
  - intros m E Hm. rewrite E in H2. apply H2. simpl.
    destruct (Z.eqb_spec m 0); [contradiction | reflexivity].
  - intros m E Hm. rewrite E in H3.
    destruct (holds_true _ _ (H3 ltac:(simpl; destruct (Z.eqb_spec m 0);
                                      [contradiction | reflexivity])))
      as (b & Eb & Hle).
    exists b. split; [exact Eb |]. apply Z.leb_le. exact Hle.
  - intros x E Hx. rewrite E in H4.
    apply (holds_true (fun b => numeric_ge_float b x)).
    apply H4. simpl. rewrite Hx. reflexivity.
  - intros s E Hs. rewrite E in H5.
    apply (holds_true (fun t => ilike t (like_pattern s))).
    apply H5. simpl. destruct (String.eqb_spec s ""); [contradiction | reflexivity].
Qed.

End Filters.

Lemma search_results_satisfy_applied_filters_witness :
  exists found,
    [ @search_row demo_runtime (demo_listing 2 50 3 4) ] = map search_row found /\
    Forall (fun p => In p (rows demo_store) /\ listing_status p = Some "active" /\
                     Qle_bool (price p) (inject_Z 60) = true)
           found.
Proof.
  destruct (@search_results_satisfy_applied_filters demo_runtime demo_postgis
              [("price_max", "60"); ("property_type", "ous")] demo_store 20
              [ @search_row demo_runtime (demo_listing 2 50 3 4) ]
              eq_refl) as (found & Hf & Hall).
  exists found. split; [exact Hf |].
  eapply Forall_impl; [| exact Hall]. intros p (H1 & H2 & _ & H3 & _).
  split; [exact H1 |]. split; [exact H2 |].
  apply (H3 60); [reflexivity | discriminate].
Defined.

(** * Further properties of the handlers *)

(** ** Malformed arguments of the two searches *)

Section Malformed.
Context {RT : Runtime} {PG : Postgis}.

Lemma arg_float_raise_iff (args : list (string * string)) (key : string) (default : float) :
  (exists e, arg_float args key default = Raise e) <->
  (exists s, dict_get args key = Some s /\ py_float s = None).
Proof.
  unfold arg_float. split.
  - intros (e & H). destruct (dict_get args key) as [s |]; [| discriminate].
    exists s. split; [reflexivity |]. destruct (py_float s); [discriminate | reflexivity].
  - intros (s & -> & ->). eexists. reflexivity.
Qed.

Lemma arg_int_raise_iff (args : list (string * string)) (key : string) (default : Z) :
  (exists e, arg_int args key default = Raise e) <->
  (exists s, dict_get args key = Some s /\ py_int s = None).
Proof.
  unfold arg_int. split.
  - intros (e & H). destruct (dict_get args key) as [s |]; [| discriminate].
    exists s. split; [reflexivity |]. destruct (py_int s); [discriminate | reflexivity].
  - intros (s & -> & ->). eexists. reflexivity.
Qed.

Lemma effective_limit_raise_iff (args : list (string * string)) (default : Z) :
  (exists e, effective_limit args default = Raise e) <->
  (exists s, dict_get args "limit" = Some s /\ py_int s = None).
Proof.
  rewrite <- (arg_int_raise_iff args "limit" default). unfold effective_limit.
  destruct (arg_int args "limit" default) as [n | e]; simpl.
  - split; intros (e & H); discriminate.
  - split; intros _; eexists; reflexivity.
Qed.

(** X2. The nearby search answers HTTP 400 exactly when one of [lat],
    [lng], [radius] and [limit] is given and does not read as a number,
    whatever the state of the store: the arguments are read before the
    store is asked. *)
Theorem find_nearby_400_iff (args : list (string * string)) (d : database) :
  find_nearby_properties args d
  = (400, PDict [ ("error", PStr "Invalid coordinates or radius") ]) <->
  ((exists s, dict_get args "lat" = Some s /\ py_float s = None) \/
   (exists s, dict_get args "lng" = Some s /\ py_float s = None) \/
   (exists s, dict_get args "radius" = Some s /\ py_int s = None) \/
   (exists s, dict_get args "limit" = Some s /\ py_int s = None)).
Proof.
  rewrite <- (arg_float_raise_iff args "lat" default_lat),
    <- (arg_float_raise_iff args "lng" default_lng),
    <- (arg_int_raise_iff args "radius" 1000),
    <- (effective_limit_raise_iff args 10).
  rewrite find_nearby_cases.
  destruct (arg_float args "lat" default_lat) as [lat | e1];
    [| split; [eauto | reflexivity]].
  destruct (arg_float args "lng" default_lng) as [lng | e2];
    [| split; [eauto 6 | reflexivity]].
  destruct (arg_int args "radius" 1000) as [radius | e3];
    [| split; [eauto 6 | reflexivity]].
  destruct (effective_limit args 10) as [limit | e4];
    [| split; [eauto 8 | reflexivity]].
  split.
  - discriminate.
  - intros [(e & H) | [(e & H) | [(e & H) | (e & H)]]]; discriminate.
Qed.

(** X3. The filtered search never answers HTTP 400: its answer is
    either HTTP 200 or the one HTTP 500 "Search failed", and a [limit]
    that does not read as an integer is answered with that 500, whatever
    the store. *)
Theorem search_properties_never_400 (args : list (string * string)) (d : database) :
  (fst (search_properties args d) = 200 \/
   search_properties args d = (500, PDict [ ("error", PStr "Search failed") ])) /\
  (forall s, dict_get args "limit" = Some s -> py_int s = None ->
     search_properties args d = (500, PDict [ ("error", PStr "Search failed") ])).
Proof.
  split.
  - right. apply search_properties_fails.
  - intros s Hs Hbad. unfold search_properties. cbv zeta.
    destruct (proj2 (effective_limit_raise_iff args 20)) as (e & ->); [eauto |].
    reflexivity.
Qed.







End Malformed.

(** ** What the limit leaves out *)

Section Cut.
Context {A : Type} (le : A -> A -> bool).
Hypothesis le_total : forall x y, le x y = true \/ le y x = true.
Hypothesis le_trans : forall x y z, le x y = true -> le y z = true -> le x z = true.

Lemma strongly_sorted_cut (n : nat) (l : list A) (a b : A) :
  StronglySorted (fun x y => le x y = true) l ->
  In a (firstn n l) -> In b (skipn n l) -> le a b = true.
Proof.
  revert l. induction n as [| n IH]; intros l Hs Ha Hb; [contradiction |].
  destruct l as [| x l]; [contradiction |].
  simpl in Ha, Hb. inversion Hs as [| ? ? Hs' Hall]; subst.
  destruct Ha as [-> | Ha].
  - rewrite Forall_forall in Hall. apply Hall.
    rewrite <- (firstn_skipn n l). apply in_or_app. right. exact Hb.
  - apply (IH l); assumption.
Qed.

(** An element that the cut of the sorted list leaves out comes after
    all the elements that are kept, and the cut is then full. *)
Lemma sort_by_cut (n : nat) (l : list A) (x : A) :
  In x l ->
  In x (firstn n (sort_by le l)) \/
  (length (firstn n (sort_by le l)) = n /\
   forall a, In a (firstn n (sort_by le l)) -> le a x = true).
Proof.
  intros Hin.
  apply (Permutation_in _ (Permutation_sym (sort_by_perm le l))) in Hin.
  rewrite <- (firstn_skipn n (sort_by le l)) in Hin.
  apply in_app_or in Hin. destruct Hin as [Hin | Hin]; [left; exact Hin | right].
  split.
  - apply firstn_length_le.
    destruct (Nat.le_gt_cases n (length (sort_by le l))) as [H | H]; [exact H |].
    rewrite skipn_all2 in Hin by lia. contradiction.
  - intros a Ha. apply (strongly_sorted_cut n (sort_by le l)); try assumption.
    apply Sorted_StronglySorted.
    + intros u v w. apply le_trans.
    + apply sort_by_sorted. exact le_total.
Qed.

End Cut.

Section Nearest.
Context {RT : Runtime} {PG : Postgis}.

Lemma by_price_total (a b : property) : by_price a b = true \/ by_price b a = true.
Proof.
  unfold by_price. destruct (Qlt_le_dec (price b) (price a)) as [H | H].
  - right. apply Qle_bool_iff. apply Qlt_le_weak, H.
  - left. apply Qle_bool_iff. exact H.
Qed.

Lemma by_price_trans (a b c : property) :
  by_price a b = true -> by_price b c = true -> by_price a c = true.
Proof.
  unfold by_price. rewrite !Qle_bool_iff. apply Qle_trans.
Qed.

(** The predicates the statement is bound to hold of a row exactly when
    the row matches the request. *)
Lemma forallb_search_matches (p : property) (b1 b2 b3 b4 b5 : bool)
    (f0 f1 f2 f3 f4 f5 : property -> bool) :
  forallb (fun f => f p)
    (f0 :: (if b1 then [f1] else []) ++ (if b2 then [f2] else []) ++
           (if b3 then [f3] else []) ++ (if b4 then [f4] else []) ++
           (if b5 then [f5] else []))%list
  = f0 p && (if b1 then f1 p else true) && (if b2 then f2 p else true)
    && (if b3 then f3 p else true) && (if b4 then f4 p else true)
    && (if b5 then f5 p else true).
Proof.
  destruct b1, b2, b3, b4, b5; simpl;
    destruct (f0 p), (f1 p), (f2 p), (f3 p), (f4 p), (f5 p); reflexivity.
Qed.

(** What a filtered query that succeeds returns, in terms of the
    request. *)
Lemma run_search_matches (args : list (string * string)) (d : database) (limit : Z)
    (rs : list (list (string * pyval))) :
  run_search d (fst (search_request args limit)) (snd (search_request args limit)) = Ok rs ->
  0 <= limit /\
  rs = map search_row
         (firstn (Z.to_nat limit)
            (sort_by by_price (filter (search_matches args) (rows d)))).
Proof.
  intros H. apply run_search_ok in H.
  destruct H as (preds & limit' & Hb & Hn & ->).
  unfold search_request in Hb. rewrite build_search_shape in Hb. cbn [fst snd] in Hb.
  rewrite (supplied_filters_shape _ _ _ _ _ default_lat) in Hb.
  rewrite bind_where_search in Hb. injection Hb as <- <-.
  split; [exact Hn |].
  f_equal. f_equal. f_equal. apply filter_ext. intros p.
  rewrite forallb_search_matches. unfold search_matches, applied.
  repeat f_equal.
  - destruct (arg_typed py_int args "price_min") as [[| m | m] |]; reflexivity.
  - destruct (arg_typed py_int args "price_max") as [[| m | m] |]; reflexivity.
  - destruct (arg_typed py_int args "bedrooms") as [[| m | m] |]; reflexivity.
  - destruct (arg_typed py_float args "bathrooms") as [x |]; [| reflexivity].
    simpl. destruct (float_is_zero x); reflexivity.
  - destruct (dict_get args "property_type") as [[| c s] |]; reflexivity.
Qed.

(** X6. The rows the statement of a filtered search fetches are in
    non-decreasing order of price and are the cheapest of the rows that
    match the request: a matching row of the store is fetched, or the
    statement fetched as many rows as its limit and none of them costs
    more than that row. *)
Theorem search_fetches_cheapest (args : list (string * string)) (d : database)
    (limit : Z) (rs : list (list (string * pyval))) :
  run_search d (fst (search_request args limit)) (snd (search_request args limit)) = Ok rs ->
  exists fetched,
    rs = map search_row fetched /\
    Sorted (fun a b => (price a <= price b)%Q) fetched /\
    forall p, In p (rows d) -> search_matches args p = true ->
      In p fetched \/
      (Z.of_nat (length fetched) = limit /\
       forall a, In a fetched -> (price a <= price p)%Q).
Proof.
  intros Hq.
  apply run_search_matches in Hq. destruct Hq as (Hn & ->).
  set (matching := filter (search_matches args) (rows d)).
  exists (firstn (Z.to_nat limit) (sort_by by_price matching)).
  split; [reflexivity |]. split.
  - rewrite <- (map_id (firstn _ _)).
    apply (sorted_map (fun a b => by_price a b = true) _ (fun x => x)).
    + intros a b. unfold by_price. apply Qle_bool_iff.
    + apply firstn_sorted, sort_by_sorted. exact by_price_total.
  - intros p Hin Hm.
    destruct (sort_by_cut by_price by_price_total by_price_trans
                (Z.to_nat limit) matching p) as [H | (Hlen & Hle)].
    + apply filter_In. split; assumption.
    + left. exact H.
    + right. split; [rewrite Hlen; lia |].
      intros a Ha. apply Qle_bool_iff. apply (Hle a Ha).
Qed.

(** X7. The rows the statement of a nearby search fetches are the
    nearest of the located rows within the radius of the centre, which
    has the longitude of the request as X and its latitude as Y: such a
    row is fetched, or the statement fetched as many rows as its limit
    and none of them is farther than that row. *)
Theorem nearby_fetches_nearest
    (Htotal : float8_le_total) (Htrans : float8_le_transitive)
    (d : database) (lat lng : float) (radius limit : Z)
    (rs : list (list (string * pyval))) :
  run_nearby d lat lng radius limit = Ok rs ->
  exists fetched,
    rs = map candidate_row fetched /\
    forall p g, In p (rows d) -> location p = Some g ->
      ST_DWithin g {| geom_x := lng; geom_y := lat; geom_srid := 4326 |}
        (float_of_int radius) = true ->
      In (p, g, ST_Distance g {| geom_x := lng; geom_y := lat; geom_srid := 4326 |})
         fetched \/
      (Z.of_nat (length fetched) = limit /\
       forall c, In c fetched ->
         float8_le (snd c)
           (ST_Distance g {| geom_x := lng; geom_y := lat; geom_srid := 4326 |}) = true).
Proof.
  intros Hq.
  apply run_nearby_ok in Hq. destruct Hq as (center & Hc & Hn & ->).
  unfold ST_GeomFromText_POINT in Hc. simpl in Hc.
  destruct (float_is_finite lng); [| discriminate].
  destruct (float_is_finite lat); [| discriminate].
  injection Hc as <-.
  set (center := {| geom_x := lng; geom_y := lat; geom_srid := 4326 |}).
  set (found := nearby_candidates center center (float_of_int radius) (rows d)).
  exists (firstn (Z.to_nat limit) (sort_by by_distance found)).
  split; [reflexivity |].
  intros p g Hin Hg Hw.
  destruct (sort_by_cut by_distance (fun a b => Htotal (snd a) (snd b))
              (fun a b c => Htrans (snd a) (snd b) (snd c))
              (Z.to_nat limit) found (p, g, ST_Distance g center))
    as [H | (Hlen & Hle)].
  - apply nearby_candidates_in; assumption.
  - left. exact H.
  - right. split; [rewrite Hlen; lia |]. intros c Hcin. apply (Hle c Hcin).
Qed.

End Nearest.

(** ** What an insert does to the store *)

Section Created.
Context {RT : Runtime} {PG : Postgis}.

(** The answer to a body that is no object. *)
Lemma add_property_not_object (data : pyval) (d : database) :
  (forall kv, data <> PDict kv) ->
  (fst (fst (add_property data d)) = 400 \/ fst (fst (add_property data d)) = 500) /\
  snd (add_property data d) = d.
Proof.
  intros Hobj. unfold add_property.
  destruct (all_in data required_fields) as [[|] | e]; simpl; auto.
  destruct (get_db_connection d); simpl; auto.
  assert (E : exists e, insert_params data = Raise e).
  { destruct data; try (eexists; reflexivity). exfalso. eapply Hobj. reflexivity. }
  destruct E as (e & ->). simpl. auto.
Qed.

(** What an insert that is answered with HTTP 201 has done, when the
    coordinates of the body are written without a quote. *)
Lemma add_property_created (data : pyval) (d d' : database) (body : pyval) :
  unquoted_coordinates data = true ->
  add_property data d = ((201, body), d') ->
  exists kv x y g c,
    data = PDict kv /\
    forallb (dict_has kv) required_fields = true /\
    dict_get kv "longitude" = Some x /\ dict_get kv "latitude" = Some y /\
    ST_GeomFromText_POINT x y 4326 = Ok g /\
    body = PDict [ ("success", PBool true);
                   ("property_id", PInt (next_id d));
                   ("message", PStr "Property added successfully") ] /\
    rows d' = (rows d ++ [inserted_row d c g])%list /\
    next_id d' = next_id d + 1.
Proof.
  intros Hplain H.
  assert (Hkv : exists kv, data = PDict kv).
  { destruct data; try solve [eexists; reflexivity];
      match type of H with
      | add_property ?v d = _ =>
          destruct (add_property_not_object v d) as ([E | E] & _);
          [intros kv; discriminate | rewrite H in E; discriminate E
          | rewrite H in E; discriminate E]
      end. }
  destruct Hkv as (kv & ->).
  destruct (forallb (dict_has kv) required_fields) eqn:Hc;
    [| rewrite (add_property_missing kv d Hc) in H; discriminate].
  rewrite (add_property_complete kv d Hc) in H.
  pose proof Hc as Hall. rewrite forallb_forall in Hall.
  destruct (dict_has_get kv "address") as (a & Ha); [apply Hall; simpl; auto |].
  destruct (dict_has_get kv "price") as (p & Hp); [apply Hall; simpl; auto |].
  destruct (dict_has_get kv "longitude") as (x & Hx); [apply Hall; simpl; auto 6 |].
  destruct (dict_has_get kv "latitude") as (y & Hy); [apply Hall; simpl; auto |].
  unfold unquoted_coordinates in Hplain. rewrite Hx, Hy in Hplain.
  apply andb_prop in Hplain. destruct Hplain as (Hpx & Hpy).
  rewrite (insert_params_dict kv a p x y Ha Hp Hx Hy) in H.
  destruct (get_db_connection d); [| discriminate]. cbn [bind] in H.
  match type of H with
  | context [execute_insert d ?ps] =>
      destruct (execute_insert d ps) as [[new_id | e] d''] eqn:Hins; [| discriminate]
  end.
  injection H as <- <-.
  apply execute_insert_ok in Hins; [| assumption | assumption].
  destruct Hins as (g & c & Hg & _ & -> & Hrows & Hnext).
  exists kv, x, y, g, c. auto 10.
Qed.


(** X10. In a healthy report [properties_with_location] is at most
    [total_properties]; and after an insert with numeric coordinates that
    is answered with HTTP 201, a healthy report on the table as the
    insert left it has both counts one higher: every row the service
    inserts has a location. *)
Theorem health_counts_follow_inserts (d : database) (clock : datetime) (body : pyval) :
  health_check d clock = (200, body) ->
  exists total located,
    health_counts body = Some (total, located) /\
    0 <= located <= total /\
    forall data answer d' later clock' body',
      unquoted_coordinates data = true ->
      add_property data d = ((201, answer), d') ->
      rows later = rows d' ->
      health_check later clock' = (200, body') ->
      health_counts body' = Some (total + 1, located + 1).
Proof.
  intros H. pose proof (health_check_cases d clock) as Hd.
  destruct (connect_error d) eqn:Hc; [rewrite H in Hd; discriminate |].
  destruct (fault d Stmt_server_info []) eqn:H1; [rewrite H in Hd; discriminate |].
  destruct (fault d Stmt_postgis_version []) eqn:H2; [rewrite H in Hd; discriminate |].
  destruct (fault d Stmt_counts []) eqn:H3; [rewrite H in Hd; discriminate |].
  rewrite H in Hd. injection Hd as ->.
  exists (Z.of_nat (length (rows d))), (Z.of_nat (length (filter has_location (rows d)))).
  split; [reflexivity |]. split.
  - pose proof (filter_length_le has_location (rows d)). lia.
  - intros data answer d' later clock' body' Hplain Hadd Hlater Hhealthy.
    apply add_property_created in Hadd; [| exact Hplain].
    destruct Hadd as (kv & x & y & g & c & _ & _ & _ & _ & _ & _ & Hrows & _).
    pose proof (health_check_cases later clock') as Hd'.
    destruct (connect_error later); [rewrite Hhealthy in Hd'; discriminate |].
    destruct (fault later Stmt_server_info []); [rewrite Hhealthy in Hd'; discriminate |].
    destruct (fault later Stmt_postgis_version []);
      [rewrite Hhealthy in Hd'; discriminate |].
    destruct (fault later Stmt_counts []); [rewrite Hhealthy in Hd'; discriminate |].
    rewrite Hhealthy in Hd'. injection Hd' as ->.
    unfold healthy_body, health_counts. simpl.
    rewrite Hlater, Hrows, filter_app, !length_app. simpl.
    do 3 f_equal; lia.
Qed.

End Created.

(** ** The two fixed statements, bound *)

Section Statements.
Context {RT : Runtime} {PG : Postgis}.

(** X11. Bound by position, the six parameters of the nearby search
    fall in the statement where the handler means them: the longitude
    is the X and the latitude the Y of both points, the radius is the
    distance of [ST_DWithin], and the limit is the [LIMIT]. *)
Theorem nearby_statement_binding (lat lng : float) (radius limit : Z) :
  bind_placeholders nearby_sql
    [PFloat lng; PFloat lat; PFloat lng; PFloat lat; PInt radius; PInt limit]
  = Some
  (chars "
                    SELECT 
                        id,
                        address,
                        price,
                        bedrooms,
                        bathrooms,
                        square_feet,
                        property_type,
                        listing_status,
                        ST_X(location) as longitude,
                        ST_Y(location) as latitude,
                        ST_Distance(
                            location,
                            ST_GeomFromText('POINT(" ++
   [Bound (PFloat lng)] ++
   chars " " ++
   [Bound (PFloat lat)] ++
   chars ")', 4326)
                        ) as distance_meters,
                        created_at
                    FROM properties 
                    WHERE location IS NOT NULL
                    AND ST_DWithin(
                        location,
                        ST_GeomFromText('POINT(" ++
   [Bound (PFloat lng)] ++
   chars " " ++
   [Bound (PFloat lat)] ++
   chars ")', 4326),
                        " ++
   [Bound (PInt radius)] ++
   chars "
                    )
                    ORDER BY distance_meters
                    LIMIT " ++
   [Bound (PInt limit)] ++
   chars ";
                ")%list.
Proof. reflexivity. Qed.

(** X12. Bound by position, the parameters the handler takes from a
    body fall in the insert in the order of its column list: the body's
    address, price, bedrooms, bathrooms, square_feet and property_type
    (null, and "Unknown", where the body leaves an optional one out),
    then its longitude as the X and its latitude as the Y of the point. *)
Theorem insert_statement_binding (kv : list (string * pyval)) (params : list pyval) :
  insert_params (PDict kv) = Ok params ->
  exists a p x y,
    dict_get kv "address" = Some a /\ dict_get kv "price" = Some p /\
    dict_get kv "longitude" = Some x /\ dict_get kv "latitude" = Some y /\
    bind_placeholders insert_sql params
    = Some
  (chars "
                    INSERT INTO properties (
                        address, price, bedrooms, bathrooms, square_feet,
                        property_type, location
                    ) VALUES (
                        " ++
   [Bound a] ++
   chars ", " ++
   [Bound p] ++
   chars ", " ++
   [Bound (dict_get_default kv "bedrooms" PNone)] ++
   chars ", " ++
   [Bound (dict_get_default kv "bathrooms" PNone)] ++
   chars ", " ++
   [Bound (dict_get_default kv "square_feet" PNone)] ++
   chars ", " ++
   [Bound (dict_get_default kv "property_type" (PStr "Unknown"))] ++
   chars ",
                        ST_GeomFromText('POINT(" ++
   [Bound x] ++
   chars " " ++
   [Bound y] ++
   chars ")', 4326)
                    ) RETURNING id;
                ")%list.
Proof.
  intros H.
  destruct (dict_get kv "address") as [a |] eqn:Ha;
    [| unfold insert_params, py_getitem in H; rewrite Ha in H; discriminate].
  destruct (dict_get kv "price") as [p |] eqn:Hp;
    [| unfold insert_params, py_getitem in H; rewrite Ha, Hp in H; discriminate].
  destruct (dict_get kv "longitude") as [x |] eqn:Hx.
  2: { unfold insert_params, py_getitem, py_get in H. rewrite Ha, Hp, Hx in H.
       simpl in H.
       destruct (dict_get kv "bedrooms"), (dict_get kv "bathrooms"),
         (dict_get kv "square_feet"), (dict_get kv "property_type"); discriminate. }
  destruct (dict_get kv "latitude") as [y |] eqn:Hy.
  2: { unfold insert_params, py_getitem, py_get in H. rewrite Ha, Hp, Hx, Hy in H.
       simpl in H.
       destruct (dict_get kv "bedrooms"), (dict_get kv "bathrooms"),
         (dict_get kv "square_feet"), (dict_get kv "property_type"); discriminate. }
  rewrite (insert_params_dict kv a p x y Ha Hp Hx Hy) in H. injection H as <-.
  exists a, p, x, y. repeat (split; [reflexivity |]). reflexivity.
Qed.

End Statements.

(** ** An insert followed by a search *)

Section RoundTrip.
Context {RT : Runtime} {PG : Postgis}.

(** X13. A property whose insert, with numeric coordinates, was answered
    with HTTP 201 is stored with the status the table gives by default
    (the insert names none); and the statement of a later filtered search
    it matches, run on the table as the insert left it, fetches it, while
    the rows that match are no more than the limit of the search. *)
Theorem inserted_property_is_searchable (data : pyval) (d d' : database)
    (answer : pyval) :
  unquoted_coordinates data = true ->
  add_property data d = ((201, answer), d') ->
  exists row,
    rows d' = (rows d ++ [row])%list /\
    id row = next_id d /\
    listing_status row = default_listing_status /\
    response_field answer "property_id" = Some (PInt (id row)) /\
    forall later args limit rs,
      rows later = rows d' ->
      search_matches args row = true ->
      run_search later (fst (search_request args limit)) (snd (search_request args limit))
      = Ok rs ->
      Z.of_nat (length (filter (search_matches args) (rows later))) <= limit ->
      In (search_row row) rs.
Proof.
  intros Hplain H. apply add_property_created in H; [| exact Hplain].
  destruct H as (kv & x & y & g & c & _ & _ & _ & _ & _ & -> & Hrows & _).
  exists (inserted_row d c g).
  repeat (split; [first [assumption | reflexivity] |]).
  intros later args limit rs Hlater Hm Hq Hcount.
  apply run_search_matches in Hq. destruct Hq as (Hn & ->).
  set (matching := filter (search_matches args) (rows later)) in *.
  rewrite firstn_all2 by (rewrite sort_by_length; lia).
  apply in_map.
  apply (Permutation_in _ (Permutation_sym (sort_by_perm by_price matching))).
  apply filter_In. split; [| exact Hm].
  rewrite Hlater, Hrows. apply in_or_app. right. left. reflexivity.
Qed.

(** X15. The point an insert with numeric coordinates stores has the
    body's longitude as X and its latitude as Y, in SRID 4326; and the
    statement of a later nearby search centred at these coordinates with
    a radius that is not negative, run on the table as the insert left
    it, fetches the inserted row whenever the rows within the radius are
    no more than the limit of the search. *)
Theorem inserted_property_is_fetched_nearby (Hself : point_within_itself)
    (data : pyval) (d d' : database) (answer : pyval) :
  unquoted_coordinates data = true ->
  add_property data d = ((201, answer), d') ->
  exists kv vx vy x y row,
    data = PDict kv /\
    dict_get kv "longitude" = Some vx /\ dict_get kv "latitude" = Some vy /\
    wkt_coordinate vx = Some x /\ wkt_coordinate vy = Some y /\
    rows d' = (rows d ++ [row])%list /\
    location row = Some {| geom_x := x; geom_y := y; geom_srid := 4326 |} /\
    response_field answer "property_id" = Some (PInt (id row)) /\
    forall later radius limit rs,
      rows later = rows d' ->
      0 <= radius ->
      run_nearby later y x radius limit = Ok rs ->
      Z.of_nat (length (nearby_candidates
                          {| geom_x := x; geom_y := y; geom_srid := 4326 |}
                          {| geom_x := x; geom_y := y; geom_srid := 4326 |}
                          (float_of_int radius) (rows later))) <= limit ->
      In (candidate_row
            (row, {| geom_x := x; geom_y := y; geom_srid := 4326 |},
             ST_Distance {| geom_x := x; geom_y := y; geom_srid := 4326 |}
               {| geom_x := x; geom_y := y; geom_srid := 4326 |})) rs.
Proof.
  intros Hplain H. apply add_property_created in H; [| exact Hplain].
  destruct H as (kv & vx & vy & g & c & -> & _ & Hx & Hy & Hg & -> & Hrows & _).
  unfold ST_GeomFromText_POINT in Hg.
  destruct (wkt_coordinate vx) as [x |] eqn:Hvx; [| discriminate].
  destruct (wkt_coordinate vy) as [y |] eqn:Hvy; [| discriminate].
  injection Hg as <-.
  set (g := {| geom_x := x; geom_y := y; geom_srid := 4326 |}) in *.
  exists kv, vx, vy, x, y, (inserted_row d c g).
  repeat (split; [first [assumption | reflexivity] |]).
  intros later radius limit rs Hlater Hr0 Hq Hcount.
  apply run_nearby_ok in Hq. destruct Hq as (center & Hc & Hn & ->).
  unfold ST_GeomFromText_POINT in Hc. simpl in Hc.
  destruct (float_is_finite x); [| discriminate].
  destruct (float_is_finite y); [| discriminate].
  injection Hc as <-. fold g. fold g in Hcount.
  set (found := nearby_candidates g g (float_of_int radius) (rows later)) in *.
  rewrite firstn_all2 by (rewrite sort_by_length; lia).
  apply in_map.
  apply (Permutation_in _ (Permutation_sym (sort_by_perm by_distance found))).
  apply nearby_candidates_in.
  - rewrite Hlater, Hrows. apply in_or_app. right. left. reflexivity.
  - reflexivity.
  - apply Hself, Hr0.
Qed.

End RoundTrip.

(** ** No property twice *)

Section Distinct.
Context {RT : Runtime} {PG : Postgis}.

Lemma NoDup_map_filter {A B : Type} (f : A -> B) (g : A -> bool) (l : list A) :
  NoDup (map f l) -> NoDup (map f (filter g l)).
Proof.
  induction l as [| a l IH]; simpl; intros H; [constructor |].
  inversion H as [| ? ? Hnot Hrest]; subst.
  destruct (g a); simpl; [| apply IH, Hrest].
  constructor; [| apply IH, Hrest].
  intros Hin. apply Hnot. apply in_map_iff in Hin.
  destruct Hin as (x & Hx & Hin). apply filter_In in Hin.
  apply in_map_iff. exists x. tauto.
Qed.

Lemma NoDup_map_firstn {A B : Type} (f : A -> B) (n : nat) (l : list A) :
  NoDup (map f l) -> NoDup (map f (firstn n l)).
Proof.
  revert l. induction n as [| n IH]; intros [| a l] H; simpl; try constructor.
  - inversion H as [| ? ? Hnot Hrest]; subst.
    intros Hin. apply Hnot. apply in_map_iff in Hin.
    destruct Hin as (x & Hx & Hin). apply firstn_incl in Hin.
    apply in_map_iff. exists x. tauto.
  - inversion H; subst. apply IH. assumption.
Qed.

Lemma NoDup_map_sort_by {A B : Type} (f : A -> B) (le : A -> A -> bool) (l : list A) :
  NoDup (map f l) -> NoDup (map f (sort_by le l)).
Proof.
  intros H. eapply Permutation_NoDup; [| exact H].
  apply Permutation_map, Permutation_sym, sort_by_perm.
Qed.

Lemma nearby_candidates_ids (center within : geometry) (radius : float)
    (l : list property) :
  NoDup (map id l) ->
  NoDup (map (fun c => id (fst (fst c))) (nearby_candidates center within radius l)).
Proof.
  induction l as [| p l IH]; simpl; intros H; [constructor |].
  inversion H as [| ? ? Hnot Hrest]; subst.
  destruct (location p) as [g |]; [| apply IH, Hrest].
  destruct (ST_DWithin g within radius); [| apply IH, Hrest].
  simpl. constructor; [| apply IH, Hrest].
  intros Hin. apply Hnot. apply in_map_iff in Hin.
  destruct Hin as (c & Hc & Hin).
  pose proof (nearby_candidates_spec center within radius l) as Hs.
  rewrite Forall_forall in Hs. destruct (Hs c Hin) as (Hl & _).
  apply in_map_iff. exists (fst (fst c)). tauto.
Qed.

Lemma NoDup_map_inj {A B : Type} (f : A -> B) (l : list A) :
  (forall x y, f x = f y -> x = y) -> NoDup l -> NoDup (map f l).
Proof.
  intros Hinj. induction 1 as [| a l Hnot Hrest IH]; simpl; constructor; [| exact IH].
  intros Hin. apply Hnot. apply in_map_iff in Hin.
  destruct Hin as (x & Hx & Hin). apply Hinj in Hx. subst x. exact Hin.
Qed.

(** X14. When the rows of the store have distinct identifiers, so have
    the rows the statement of either search fetches: no row is fetched
    twice. *)
Theorem fetched_rows_have_distinct_ids (d : database)
    (lat lng : float) (radius limit : Z) (conditions : list string) (params : list pyval)
    (rs : list (list (string * pyval))) :
  NoDup (map id (rows d)) ->
  run_nearby d lat lng radius limit = Ok rs \/ run_search d conditions params = Ok rs ->
  NoDup (map (fun row => dict_get row "id") rs).
Proof.
  intros Hids [Hq | Hq].
  - apply run_nearby_ok in Hq. destruct Hq as (center & _ & _ & ->).
    rewrite map_map.
    rewrite (map_ext _ (fun c => Some (PInt (id (fst (fst c))))))
      by (intros c; reflexivity).
    rewrite <- (map_map (fun c => id (fst (fst c))) (fun i => Some (PInt i))).
    apply NoDup_map_inj; [intros x y E; injection E; auto |].
    apply NoDup_map_firstn, NoDup_map_sort_by, nearby_candidates_ids, Hids.
  - apply run_search_ok in Hq. destruct Hq as (preds & limit' & _ & _ & ->).
    rewrite map_map.
    rewrite (map_ext _ (fun p => Some (PInt (id p)))) by (intros p; reflexivity).
    rewrite <- (map_map id (fun i => Some (PInt i))).
    apply NoDup_map_inj; [intros x y E; injection E; auto |].
    apply NoDup_map_firstn, NoDup_map_sort_by, NoDup_map_filter, Hids.
Qed.

End Distinct.

(** ** The further properties on the small store *)

Lemma demo_float8_le_transitive : @float8_le_transitive demo_runtime demo_postgis.
Proof.
  intros x y z Hxy Hyz. simpl in *.
  apply Z.leb_le. apply Z.leb_le in Hxy. apply Z.leb_le in Hyz. lia.
Qed.

Lemma demo_store_distinct_ids : NoDup (map id (rows demo_store)).
Proof.
  repeat constructor; simpl; intros H;
    repeat (destruct H as [H | H]; [discriminate H |]); exact H.
Qed.

Lemma find_nearby_400_iff_witness :
  @find_nearby_properties demo_runtime demo_postgis [("limit", "ten")]
    (demo_unreachable [] 1)
  = (400, PDict [ ("error", PStr "Invalid coordinates or radius") ]).
Proof.
  apply (proj2 (@find_nearby_400_iff demo_runtime demo_postgis [("limit", "ten")]
                  (demo_unreachable [] 1))).
  right; right; right. exists "ten". split; reflexivity.
Defined.

Lemma search_properties_never_400_witness :
  @search_properties demo_runtime demo_postgis [("limit", "ten")] demo_store
  = (500, PDict [ ("error", PStr "Search failed") ]).
Proof.
  apply (proj2 (@search_properties_never_400 demo_runtime demo_postgis
                  [("limit", "ten")] demo_store) "ten"); reflexivity.
Defined.



Lemma search_fetches_cheapest_witness :
  exists fetched,
    [ @search_row demo_runtime (demo_listing 2 50 3 4);
      @search_row demo_runtime (demo_listing 3 70 1 1) ] = map search_row fetched /\
    Sorted (fun a b => (price a <= price b)%Q) fetched.
Proof.
  destruct (@search_fetches_cheapest demo_runtime demo_postgis
              [("limit", "2")] demo_store 2
              [ @search_row demo_runtime (demo_listing 2 50 3 4);
                @search_row demo_runtime (demo_listing 3 70 1 1) ] eq_refl)
    as (fetched & Hb & Hs & _).
  exists fetched. auto.
Defined.

Lemma nearby_fetches_nearest_witness :
  exists fetched, demo_nearby_rows = map candidate_row fetched.
Proof.
  destruct (@nearby_fetches_nearest demo_runtime demo_postgis
              demo_float8_le_total demo_float8_le_transitive
              demo_store (demo_float 0) (demo_float 0) 50 2 demo_nearby_rows eq_refl)
    as (fetched & Hb & _).
  exists fetched. exact Hb.
Defined.


Lemma health_counts_follow_inserts_witness :
  exists total located,
    health_counts (snd (@health_check demo_runtime demo_store demo_time))
    = Some (total, located) /\
    0 <= located <= total /\
    health_counts
      (snd (@health_check demo_runtime
              (snd (@add_property demo_runtime demo_postgis
                      (PDict (demo_body (PInt 37) (PInt (-122)))) demo_store))
              demo_time))
    = Some (total + 1, located + 1).
Proof.
  destruct (@health_counts_follow_inserts demo_runtime demo_postgis demo_store demo_time
              (snd (@health_check demo_runtime demo_store demo_time)) eq_refl)
    as (total & located & Hc & Hle & Hnext).
  exists total, located. split; [exact Hc |]. split; [exact Hle |].
  apply (Hnext (PDict (demo_body (PInt 37) (PInt (-122))))
           (snd (fst (@add_property demo_runtime demo_postgis
                        (PDict (demo_body (PInt 37) (PInt (-122)))) demo_store)))
           (snd (@add_property demo_runtime demo_postgis
                   (PDict (demo_body (PInt 37) (PInt (-122)))) demo_store))
           (snd (@add_property demo_runtime demo_postgis
                   (PDict (demo_body (PInt 37) (PInt (-122)))) demo_store))
           demo_time);
    reflexivity.
Defined.

Lemma insert_statement_binding_witness :
  exists a p x y,
    dict_get (demo_body (PInt 37) (PInt (-122))) "address" = Some a /\
    dict_get (demo_body (PInt 37) (PInt (-122))) "price" = Some p /\
    dict_get (demo_body (PInt 37) (PInt (-122))) "longitude" = Some x /\
    dict_get (demo_body (PInt 37) (PInt (-122))) "latitude" = Some y.
Proof.
  destruct (@insert_statement_binding demo_runtime
              (demo_body (PInt 37) (PInt (-122)))
              [ PStr "1 Main St"; PInt 500000; PNone; PNone; PNone; PStr "Unknown";
                PInt (-122); PInt 37 ] eq_refl)
    as (a & p & x & y & Ha & Hp & Hx & Hy & _).
  exists a, p, x, y. auto.
Defined.

Lemma inserted_property_is_searchable_witness :
  exists row,
    id row = 4 /\
    In (@search_row demo_runtime row)
       [ @search_row demo_runtime (demo_listing 2 50 3 4);
         @search_row demo_runtime (demo_listing 3 70 1 1);
         @search_row demo_runtime (demo_listing 1 100 0 0);
         @search_row demo_runtime
           {| id := 4; address := "1 Main St"; price := inject_Z 500000;
              bedrooms := None; bathrooms := None; square_feet := None;
              property_type := Some "Unknown"; listing_status := Some "active";
              location := Some (demo_point (-122) 37); created_at := demo_time |} ].
Proof.
  destruct (@inserted_property_is_searchable demo_runtime demo_postgis
              (PDict (demo_body (PInt 37) (PInt (-122)))) demo_store
              (snd (@add_property demo_runtime demo_postgis
                      (PDict (demo_body (PInt 37) (PInt (-122)))) demo_store))
              (snd (fst (@add_property demo_runtime demo_postgis
                           (PDict (demo_body (PInt 37) (PInt (-122)))) demo_store)))
              eq_refl eq_refl)
    as (row & _ & Hid & Hstatus & _ & Hfound).
  exists row. split; [exact Hid |].
  apply (Hfound (snd (@add_property demo_runtime demo_postgis
                        (PDict (demo_body (PInt 37) (PInt (-122)))) demo_store))
           [] 20).
  - reflexivity.
  - unfold search_matches. rewrite Hstatus. reflexivity.
  - reflexivity.
  - apply Z.leb_le. reflexivity.
Defined.

Lemma inserted_property_is_fetched_nearby_witness :
  exists row,
    @location demo_runtime row = Some (demo_point (-122) 37) /\
    exists rs,
      @run_nearby demo_runtime demo_postgis
        (snd (@add_property demo_runtime demo_postgis
                (PDict (demo_body (PInt 37) (PInt (-122)))) demo_store))
        (demo_float 37) (demo_float (-122)) 0 10 = Ok rs /\
      In (@candidate_row demo_runtime (row, demo_point (-122) 37, demo_float 0)) rs.
Proof.
  destruct (@inserted_property_is_fetched_nearby demo_runtime demo_postgis
              demo_point_within_itself
              (PDict (demo_body (PInt 37) (PInt (-122)))) demo_store
              (snd (@add_property demo_runtime demo_postgis
                      (PDict (demo_body (PInt 37) (PInt (-122)))) demo_store))
              (snd (fst (@add_property demo_runtime demo_postgis
                           (PDict (demo_body (PInt 37) (PInt (-122)))) demo_store)))
              eq_refl eq_refl)
    as (kv & vx & vy & x & y & row & Hkv & Hvx & Hvy & Hx & Hy & _ & Hloc & _ & Hfound).
  injection Hkv as <-.
  injection Hvx as <-. injection Hvy as <-.
  injection Hx as <-. injection Hy as <-.
  exists row. split; [exact Hloc |].
  eexists. split; [reflexivity |].
  apply (Hfound (snd (@add_property demo_runtime demo_postgis
                        (PDict (demo_body (PInt 37) (PInt (-122)))) demo_store))
           0 10).
  - reflexivity.
  - apply Z.le_refl.
  - reflexivity.
  - apply Z.leb_le. reflexivity.
Defined.

Lemma fetched_rows_have_distinct_ids_witness :
  NoDup (map (fun row => dict_get row "id") demo_nearby_rows).
Proof.
  apply (@fetched_rows_have_distinct_ids demo_runtime demo_postgis demo_store
           (demo_float 0) (demo_float 0) 50 2 [] [] demo_nearby_rows
           demo_store_distinct_ids).
  left. reflexivity.
Defined.
